(** * bicepDeployment: change detection and deployment-state tracking

    A shallow embedding of [deployScript/config.py], [deployScript/bicep_manager.py]
    and [deployScript/deployment.py].  Python dictionaries loaded from the settings
    file are finite maps from strings to JSON values; methods that read or write
    the settings file, ask the operator or call the Azure CLI are functions in a
    state-and-exception monad over an explicit [World]. *)

From Stdlib Require Import ZArith String Ascii List Lia Bool.
From stdpp Require Import base option list sorting gmap strings.

Open Scope string_scope.

(** ** Python values *)

(** What the fields of a persisted record hold: [null], a boolean, an integer
    or a string. *)
Inductive pyval :=
  | VNone
  | VBool (b : bool)
  | VInt (z : Z)
  | VStr (s : string).

(** One entry of [FileOrder], and the [Configuration] mapping. *)
Abbreviation dict := (gmap string pyval).

(** [bool(v)] *)
Definition truthy (v : pyval) : bool :=
  match v with
  | VNone => false
  | VBool b => b
  | VInt z => negb (z =? 0)%Z
  | VStr s => negb (s =? "")%string
  end.

(** [bool(d)] for a dictionary: false exactly for the empty one. *)
Definition dict_truthy (d : dict) : bool :=
  match map_to_list d with [] => false | _ => true end.

(** [bool(s)] for an [Optional[str]]. *)
Definition truthy_str (o : option string) : bool :=
  match o with Some s => negb (s =? "")%string | None => false end.

(** [d.get(k)] *)
Definition get (d : dict) (k : string) : pyval := default VNone (d !! k).

(** [d.get(k, dflt)] *)
Definition get_default (d : dict) (k : string) (dflt : pyval) : pyval := default dflt (d !! k).

(** [k in d] *)
Definition has_key (d : dict) (k : string) : bool :=
  match d !! k with Some _ => true | None => false end.

(** [v is False], [v is None] *)
Definition is_False (v : pyval) : bool := match v with VBool false => true | _ => false end.
Definition is_None (v : pyval) : bool := match v with VNone => true | _ => false end.

(** [v == s] for a string [s] *)
Definition eq_str (v : pyval) (s : string) : bool :=
  match v with VStr t => (t =? s)%string | _ => false end.

(** [v in names] for a list of strings *)
Definition in_strs (v : pyval) (names : list string) : bool := existsb (eq_str v) names.

(** An [Optional[str]] stored into a dictionary. *)
Definition of_opt_str (o : option string) : pyval :=
  match o with Some s => VStr s | None => VNone end.

(** [str.upper()], on ASCII letters. *)
Definition upper_ascii (c : ascii) : ascii :=
  let n := nat_of_ascii c in
  if ((97 <=? n)%nat && (n <=? 122)%nat)%bool then ascii_of_nat (n - 32) else c.

Fixpoint upper (s : string) : string :=
  match s with
  | EmptyString => EmptyString
  | String c r => String (upper_ascii c) (upper r)
  end.

(** ** Exceptions and results *)

Inductive exn_kind :=
  | AttributeError | TypeError | ValueError | OSError | EOFError | OtherError.

Record exn := Exn { exn_kind_of : exn_kind; str_of : string }.

Inductive Result (A : Type) :=
  | Ok (a : A)
  | Raise (e : exn).
Arguments Ok {A} a.
Arguments Raise {A} e.

Definition is_ValueError_or_OSError (e : exn) : bool :=
  match exn_kind_of e with ValueError | OSError => true | _ => false end.

(** ** Paths *)

(** A template file in the working directory, named by its final component. *)
Abbreviation Path := string.

Fixpoint rfind_dot (s : string) (i : nat) : option nat :=
  match s with
  | EmptyString => None
  | String c r =>
      match rfind_dot r (S i) with
      | Some j => Some j
      | None => if Ascii.eqb c "."%char then Some i else None
      end
  end.

(** [pathlib]'s [PurePath.stem]: the name up to its last dot, unless that dot
    is the first or the last character. *)
Definition stem (name : Path) : string :=
  match rfind_dot name 0 with
  | Some i =>
      if ((0 <? i)%nat && (i <? String.length name - 1)%nat)%bool
      then substring 0 i name else name
  | None => name
  end.

(** ** The world *)

(** The settings file as [load_deployment_settings] meets it. A parsed object
    carries the four members the loader reads; an absent member and a [null]
    one are the same to [dict.get]. *)
Record SettingsObject := {
  so_SelectedParameterFile : pyval;
  so_LastUpdated : pyval;
  so_FileOrder : option (list dict);
  so_Configuration : option dict
}.

(** A JSON document that is not an object. *)
Inductive NonObject :=
  | JArray (items : list pyval)
  | JScalar (v : pyval).

Inductive SettingsFile :=
  | FileAbsent                          (* [settings_file.exists()] is false *)
  | FileMalformed                       (* [json.load] raises [JSONDecodeError] *)
  | FileNotObject (data : NonObject)    (* valid JSON, but not an object *)
  | FileObject (data : SettingsObject).

(** A template file on disk; [df_hash] is the SHA-256 hex digest of its bytes,
    [None] when opening it fails. *)
Record DiskFile := {
  df_name : string;
  df_size : Z;
  df_mtime : Z;
  df_hash : option string
}.

(** What a call of the Azure client comes back with. *)
Inductive ToolResult :=
  | Returned (ok : bool) (message : string)
  | Raised (e : exn).

(** What [deploy_bicep_template] returns: [True], [False] or ["skipped"]. *)
Inductive DeployResult := RTrue | RFalse | RSkipped.

(** History of a batch run: what the loop of [deploy_all_templates] did with
    the item at (1-based) position [i]. *)
Inductive BatchEvent :=
  | EvAttempt (i : nat) (name : string) (result : DeployResult)
      (* [deploy_bicep_template] was called on it and returned [result] *)
  | EvDeclinedItem (i : nat) (name : string)
      (* "Skipped ... (user choice)": the operator declined it, [continue] *)
  | EvHalt (i : nat).
      (* "Batch deployment cancelled by user": [break] after item [i] failed *)

Record World := {
  w_settings_file : SettingsFile;
  w_disk : list DiskFile;                 (* [Path(".").glob("*.bicep")], in glob order *)
  w_now : Z;                              (* [datetime.now()] *)
  w_input : list string;                  (* the lines the operator will type *)
  w_validate : string → Path → option Path → ToolResult;
                                          (* [azure_client.validate_template] *)
  w_deploy : string → Path → option Path → string → ToolResult;
                                          (* [azure_client.deploy_template] *)
  w_skip_unchanged_global : string;       (* [DeploymentManager.skip_unchanged_global] *)
  w_events : list BatchEvent              (* history of the batch loop *)
}.

(** The [datetime] functions the code calls. *)
Class Datetime := {
  strftime : Z → string;                  (* [.strftime("%Y-%m-%d %H:%M:%S")] *)
  strptime : string → option Z;           (* [datetime.strptime(s, "%Y-%m-%d %H:%M:%S")] *)
  fromisoformat : string → option Z       (* [datetime.fromisoformat] *)
}.

(** ** The state-and-exception monad *)

Definition M (A : Type) : Type := World → Result A * World.

Definition ret {A} (a : A) : M A := λ w, (Ok a, w).
Definition raise {A} (e : exn) : M A := λ w, (Raise e, w).
Definition bind {A B} (m : M A) (k : A → M B) : M B :=
  λ w, match m w with
       | (Ok a, w') => k a w'
       | (Raise e, w') => (Raise e, w')
       end.
Definition lift {A} (f : World → Result A) : M A := λ w, (f w, w).
Definition modify (f : World → World) : M unit := λ w, (Ok tt, f w).

(** [try: m except Exception as e: h e] *)
Definition try_except {A} (m : M A) (h : exn → M A) : M A :=
  λ w, match m w with
       | (Ok a, w') => (Ok a, w')
       | (Raise e, w') => h e w'
       end.

Notation "x <- m ;; k" := (bind m (λ x, k))
  (at level 20, m at level 99, k at level 200, only parsing).
Notation "' p <- m ;; k" := (bind m (λ x, match x with p => k end))
  (at level 20, p pattern, m at level 99, k at level 200, only parsing).
Notation "m ;; k" := (bind m (λ _, k))
  (at level 100, k at level 200, only parsing, right associativity).

(** The same for pure code that may raise. *)
Definition rbind {A B} (r : Result A) (k : A → Result B) : Result B :=
  match r with Ok a => k a | Raise e => Raise e end.

(** [try: r except (kinds): h] *)
Definition except {A} (r : Result A) (caught : exn → bool) (h : Result A) : Result A :=
  match r with
  | Ok a => Ok a
  | Raise e => if caught e then h else Raise e
  end.

Fixpoint mapM {A B} (f : A → Result B) (l : list A) : Result (list B) :=
  match l with
  | [] => Ok []
  | a :: rest => rbind (f a) (λ b, rbind (mapM f rest) (λ bs, Ok (b :: bs)))
  end.

Definition set_settings_file (f : SettingsFile) (w : World) : World :=
  {| w_settings_file := f; w_disk := w_disk w; w_now := w_now w; w_input := w_input w;
     w_validate := w_validate w; w_deploy := w_deploy w;
     w_skip_unchanged_global := w_skip_unchanged_global w; w_events := w_events w |}.

Definition set_input (l : list string) (w : World) : World :=
  {| w_settings_file := w_settings_file w; w_disk := w_disk w; w_now := w_now w; w_input := l;
     w_validate := w_validate w; w_deploy := w_deploy w;
     w_skip_unchanged_global := w_skip_unchanged_global w; w_events := w_events w |}.

Definition set_skip_unchanged_global (s : string) (w : World) : World :=
  {| w_settings_file := w_settings_file w; w_disk := w_disk w; w_now := w_now w;
     w_input := w_input w; w_validate := w_validate w; w_deploy := w_deploy w;
     w_skip_unchanged_global := s; w_events := w_events w |}.

Definition add_event (ev : BatchEvent) (w : World) : World :=
  {| w_settings_file := w_settings_file w; w_disk := w_disk w; w_now := w_now w;
     w_input := w_input w; w_validate := w_validate w; w_deploy := w_deploy w;
     w_skip_unchanged_global := w_skip_unchanged_global w; w_events := (w_events w ++ [ev])%list |}.

(** [input(prompt)]: the operator's next line; end of input raises [EOFError]. *)
Definition input : M string :=
  λ w, match w_input w with
       | line :: rest => (Ok line, set_input rest w)
       | [] => (Raise (Exn EOFError "EOF when reading a line"), w)
       end.

(** [logger.log] only prints and appends to the log files. *)
Definition log (message : string) : M unit := ret tt.

(** ** config.py *)

Record DeploymentSettings := {
  selected_parameter_file : pyval;
  last_updated : pyval;
  file_order : list dict;
  configuration : dict
}.

(** [DeploymentSettings()], after [__post_init__]. *)
Definition default_settings : DeploymentSettings :=
  {| selected_parameter_file := VNone; last_updated := VNone;
     file_order := []; configuration := ∅ |}.

Definition with_file_order (l : list dict) (s : DeploymentSettings) : DeploymentSettings :=
  {| selected_parameter_file := selected_parameter_file s; last_updated := last_updated s;
     file_order := l; configuration := configuration s |}.

Definition load_deployment_settings (w : World) : Result DeploymentSettings :=
  match w_settings_file w with
  | FileAbsent => Ok default_settings
  | FileMalformed =>
      (* [json.load] raises [JSONDecodeError], which the handler catches *)
      Ok default_settings
  | FileNotObject data =>
      (* [data.get] on a list, string, number or [None]; the handler only
         catches [JSONDecodeError] and [FileNotFoundError] *)
      Raise (Exn AttributeError "object has no attribute 'get'")
  | FileObject data =>
      Ok {| selected_parameter_file := so_SelectedParameterFile data;
            last_updated := so_LastUpdated data;
            file_order := default [] (so_FileOrder data);
            configuration := default ∅ (so_Configuration data) |}
  end.

Module BicepTemplate.
Record t := {
  name : string;
  file : Path;
  size : Z;
  enabled : pyval;
  last_modified : Z;
  last_deployment_success : pyval;
  last_deployment_error : pyval;
  last_deployment_time : option Z;
  needs_redeployment : bool;
  last_file_hash : option string;
  last_validation_success : pyval;
  last_validation_error : pyval;
  last_validation_time : option Z
}.
End BicepTemplate.

Section WithDatetime.
Context `{Datetime}.

Definition save_deployment_settings (settings : DeploymentSettings) : M unit :=
  λ w,
    let last_updated := VStr (strftime (w_now w)) in
    let data := {| so_SelectedParameterFile := selected_parameter_file settings;
                   so_LastUpdated := last_updated;
                   so_FileOrder := Some (file_order settings);
                   so_Configuration := Some (configuration settings) |} in
    (Ok tt, set_settings_file (FileObject data) w).

(** ** bicep_manager.py *)

Definition find_file (w : World) (p : Path) : option DiskFile :=
  List.find (λ f, (df_name f =? p)%string) (w_disk w).

(** [path.stat()] *)
Definition stat (w : World) (p : Path) : Result DiskFile :=
  match find_file w p with
  | Some f => Ok f
  | None => Raise (Exn OSError "No such file or directory")
  end.

Definition _get_current_file_hash (w : World) (file_path : Path) : option string :=
  match find_file w file_path with
  | Some f => df_hash f
  | None => None
  end.

(** [datetime.strptime(v, "%Y-%m-%d %H:%M:%S")] *)
Definition py_strptime (v : pyval) : Result Z :=
  match v with
  | VStr s =>
      match strptime s with
      | Some t => Ok t
      | None => Raise (Exn ValueError "time data does not match format")
      end
  | _ => Raise (Exn TypeError "strptime() argument 1 must be str")
  end.

(** [datetime.fromisoformat(v)] *)
Definition py_fromisoformat (v : pyval) : Result Z :=
  match v with
  | VStr s =>
      match fromisoformat s with
      | Some t => Ok t
      | None => Raise (Exn ValueError "Invalid isoformat string")
      end
  | _ => Raise (Exn TypeError "fromisoformat: argument must be str")
  end.

Definition _determine_deployment_status (w : World) (template_file : Path)
    (file_settings : option dict) : Result (bool * option string) :=
  let current_hash := _get_current_file_hash w template_file in
  match file_settings with
  | None => Ok (true, current_hash)
  | Some file_settings =>
    if negb (dict_truthy file_settings) then Ok (true, current_hash) else
    let last_success := get file_settings "LastDeploymentSuccess" in
    if is_False last_success then Ok (true, current_hash) else
    if is_None last_success then Ok (false, current_hash) else
    let last_hash := get file_settings "LastFileHash" in
    if truthy_str current_hash && truthy last_hash then
      if negb (eq_str last_hash (default "" current_hash))
      then Ok (true, current_hash)
      else Ok (false, current_hash)
    else
    let last_deployment_str := get file_settings "LastDeployment" in
    if truthy last_deployment_str then
      except
        (rbind (py_strptime last_deployment_str) (λ last_deployment,
         rbind (stat w template_file) (λ st,
         let file_modified := df_mtime st in
         if (last_deployment <? file_modified)%Z
         then Ok (true, current_hash)
         else Ok (false, current_hash))))
        is_ValueError_or_OSError
        (Ok (true, current_hash))
    else Ok (true, current_hash)
  end.


(** [any(key in f for key in ['LastDeployment', 'LastValidation',
    'LastDeploymentSuccess', 'LastValidationSuccess'])] *)
Definition has_history (f : dict) : bool :=
  existsb (has_key f)
    ["LastDeployment"; "LastValidation"; "LastDeploymentSuccess"; "LastValidationSuccess"].

(** The search loop that [get_bicep_files], [update_deployment_history] and
    [update_validation_history] each spell out: the position of the first
    entry named [names] that has history (where the loop breaks), and of the
    last one seen without. *)
Fixpoint find_entry_loop (names : list string) (entries : list dict) (i : nat)
    (simple_entry : option nat) : option nat * option nat :=
  match entries with
  | [] => (None, simple_entry)
  | f :: rest =>
      if in_strs (get f "FileName") names then
        if has_history f then (Some i, simple_entry)
        else find_entry_loop names rest (S i) (Some i)
      else find_entry_loop names rest (S i) simple_entry
  end.

Definition find_entry (names : list string) (entries : list dict) : option nat :=
  let '(file_entry, simple_entry) := find_entry_loop names entries 0 None in
  match file_entry, simple_entry with
  | None, Some i => Some i
  | _, _ => file_entry
  end.

(** [next((i for i, f in enumerate(entries) if f.get('FileName') in names), dflt)] *)
Fixpoint first_index (names : list string) (entries : list dict) (i : nat) : option nat :=
  match entries with
  | [] => None
  | f :: rest =>
      if in_strs (get f "FileName") names then Some i
      else first_index names rest (S i)
  end.

(** [file_settings.get(k) if file_settings else None] *)
Definition get_if (file_settings : option dict) (k : string) : pyval :=
  match file_settings with
  | Some d => if dict_truthy d then get d k else VNone
  | None => VNone
  end.

(** [datetime.fromisoformat(file_settings[k]) if file_settings and
    file_settings.get(k) else None] *)
Definition time_if (file_settings : option dict) (k : string) : Result (option Z) :=
  if truthy (get_if file_settings k)
  then rbind (py_fromisoformat (get_if file_settings k)) (λ t, Ok (Some t))
  else Ok None.

(** The body of the [for file in bicep_files] loop of [get_bicep_files]. *)
Definition make_template (w : World) (settings : DeploymentSettings) (file : DiskFile)
    : Result BicepTemplate.t :=
  let file_name := df_name file in
  let file_settings :=
    match find_entry [file_name; stem file_name] (file_order settings) with
    | Some i => file_order settings !! i
    | None => None
    end in
  rbind (stat w file_name) (λ st,
  let file_size := df_size st in
  let is_enabled :=
    if (file_size =? 0)%Z then VBool false
    else match file_settings with
         | Some d => if dict_truthy d then get_default d "Enabled" (VBool true) else VBool true
         | None => VBool true
         end in
  rbind (_determine_deployment_status w file_name file_settings)
    (λ '(needs_redeployment, current_hash),
  rbind (time_if file_settings "LastDeployment") (λ last_deployment_time,
  rbind (time_if file_settings "LastValidation") (λ last_validation_time,
  Ok {| BicepTemplate.name := file_name;
        BicepTemplate.file := file_name;
        BicepTemplate.size := file_size;
        BicepTemplate.enabled := is_enabled;
        BicepTemplate.last_modified := df_mtime st;
        BicepTemplate.last_deployment_success := get_if file_settings "LastDeploymentSuccess";
        BicepTemplate.last_deployment_error := get_if file_settings "LastDeploymentError";
        BicepTemplate.last_deployment_time := last_deployment_time;
        BicepTemplate.needs_redeployment := needs_redeployment;
        BicepTemplate.last_file_hash := current_hash;
        BicepTemplate.last_validation_success := get_if file_settings "LastValidationSuccess";
        BicepTemplate.last_validation_error := get_if file_settings "LastValidationError";
        BicepTemplate.last_validation_time := last_validation_time |})))).

(** [sort_key]: position in the persisted order (its length when absent), then name. *)
Definition sort_key (settings : DeploymentSettings) (template : BicepTemplate.t)
    : nat * string :=
  let names := [BicepTemplate.name template; stem (BicepTemplate.file template)] in
  (default (length (file_order settings)) (first_index names (file_order settings) 0),
   BicepTemplate.name template).

(** Tuple comparison [k1 <= k2]. *)
Definition key_le (k1 k2 : nat * string) : bool :=
  (fst k1 <? fst k2)%nat || ((fst k1 =? fst k2)%nat && String.leb (snd k1) (snd k2)).

(** [sorted(templates, key=sort_key)], stable. *)
Fixpoint insert_sorted (key : BicepTemplate.t → nat * string) (x : BicepTemplate.t)
    (l : list BicepTemplate.t) : list BicepTemplate.t :=
  match l with
  | [] => [x]
  | y :: rest =>
      if key_le (key x) (key y) then x :: y :: rest
      else y :: insert_sorted key x rest
  end.

Definition sorted (key : BicepTemplate.t → nat * string) (l : list BicepTemplate.t)
    : list BicepTemplate.t :=
  foldr (insert_sorted key) [] l.

Definition get_bicep_files (w : World) : Result (list BicepTemplate.t) :=
  let bicep_files := w_disk w in
  rbind (load_deployment_settings w) (λ settings,
  rbind (mapM (make_template w settings) bicep_files) (λ templates,
  Ok (sorted (sort_key settings) templates))).

Definition test_template_modified (w : World) (template_file : Path) : Result bool :=
  rbind (load_deployment_settings w) (λ settings,
  let file_history :=
    List.find (λ f, in_strs (get f "FileName") [template_file; stem template_file])
      (file_order settings) in
  rbind (_determine_deployment_status w template_file file_history)
    (λ '(needs_redeployment, _), Ok needs_redeployment)).

(** [{'FileName': name, 'Enabled': True}] *)
Definition new_entry (name : string) : dict :=
  {[ "FileName" := VStr name; "Enabled" := VBool true ]}.

(** The entry the update methods write to: the one the search loop finds, or
    a new one appended to the order. The result is the order and the entry's
    position in it. *)
Definition find_or_create (template_file : Path) (order : list dict) : list dict * nat :=
  match find_entry [template_file; stem template_file] order with
  | Some i => (order, i)
  | None => ((order ++ [new_entry template_file])%list, length order)
  end.

(** [file_entry.update({...})] and the error-message lines of [update_deployment_history]. *)
Definition deployment_update (success : bool) (now : string) (file_hash : option string)
    (error_message : option string) (file_entry : dict) : dict :=
  let updated :=
    <["LastFileHash" := of_opt_str file_hash]>
      (<["LastDeployment" := VStr now]>
        (<["LastDeploymentSuccess" := VBool success]> file_entry)) in
  if truthy_str error_message
  then <["LastDeploymentError" := of_opt_str error_message]> updated
  else delete "LastDeploymentError" updated.

Definition update_deployment_history (template_file : Path) (success : bool)
    (error_message : option string) : M unit :=
  settings <- lift load_deployment_settings ;;
  file_hash <- lift (λ w, Ok (_get_current_file_hash w template_file)) ;;
  let '(order, i) := find_or_create template_file (file_order settings) in
  now <- lift (λ w, Ok (strftime (w_now w))) ;;
  let order := alter (deployment_update success now file_hash error_message) i order in
  save_deployment_settings (with_file_order order settings).

Definition validation_update (success : bool) (now : string)
    (error_message : option string) (file_entry : dict) : dict :=
  let updated :=
    <["LastValidation" := VStr now]>
      (<["LastValidationSuccess" := VBool success]> file_entry) in
  if truthy_str error_message
  then <["LastValidationError" := of_opt_str error_message]> updated
  else delete "LastValidationError" updated.

Definition update_validation_history (template_file : Path) (success : bool)
    (error_message : option string) : M unit :=
  settings <- lift load_deployment_settings ;;
  let '(order, i) := find_or_create template_file (file_order settings) in
  now <- lift (λ w, Ok (strftime (w_now w))) ;;
  let order := alter (validation_update success now error_message) i order in
  save_deployment_settings (with_file_order order settings).

Definition reorder_templates (new_order : list string) : M unit :=
  settings <- lift load_deployment_settings ;;
  let first_part :=
    map (λ filename,
           match List.find (λ entry, eq_str (get entry "FileName") filename)
                   (file_order settings) with
           | Some existing_entry =>
               if dict_truthy existing_entry then existing_entry else new_entry filename
           | None => new_entry filename
           end) new_order in
  let remaining :=
    List.filter (λ entry, negb (in_strs (get entry "FileName") new_order))
      (file_order settings) in
  save_deployment_settings (with_file_order (first_part ++ remaining)%list settings) ;;
  log "Template order updated".

Definition refresh_file_list : M nat :=
  templates <- lift get_bicep_files ;;
  settings <- lift load_deployment_settings ;;
  let existing_files := map (λ entry, get entry "FileName") (file_order settings) in
  let new_files :=
    map (λ template, new_entry (BicepTemplate.name template))
      (List.filter (λ template,
                 negb (existsb (λ v, eq_str v (BicepTemplate.name template)) existing_files))
         templates) in
  (match new_files with
   | [] => ret tt
   | _ => save_deployment_settings
            (with_file_order (file_order settings ++ new_files)%list settings) ;;
          log "Discovered new template(s)"
   end) ;;
  ret (length templates).

(** ** deployment.py *)

(** [logger.show_progress_spinner]: runs the target, re-raises what it raised,
    returns what it returned. *)
Definition show_progress_spinner {A} (message : string) (target_function : M A) : M A :=
  target_function.

Definition call_tool (r : World → ToolResult) : M (bool * string) :=
  λ w, match r w with
       | Returned ok message => (Ok (ok, message), w)
       | Raised e => (Raise e, w)
       end.

(** The [while True] loop of [confirm_deploy_unchanged]; [lines] is what the
    operator has yet to type, one [input()] per round. *)
Fixpoint confirm_deploy_unchanged_loop (lines : list string) (w : World)
    : Result string * World :=
  match lines with
  | [] => (Raise (Exn EOFError "EOF when reading a line"), set_input [] w)
  | line :: rest =>
      let w := set_input rest w in
      let choice := upper line in
      if (choice =? "")%string || (choice =? "Y")%string then (Ok "deploy", w)
      else if (choice =? "N")%string then (Ok "skip", w)
      else if (choice =? "A")%string then (Ok "skip", set_skip_unchanged_global "skip" w)
      else if (choice =? "L")%string then (Ok "deploy", set_skip_unchanged_global "deploy" w)
      else confirm_deploy_unchanged_loop rest w
  end.

Definition confirm_deploy_unchanged (template_name : string) : M string :=
  λ w,
    if negb (w_skip_unchanged_global w =? "prompt")%string
    then (Ok (w_skip_unchanged_global w), w)
    else confirm_deploy_unchanged_loop (w_input w) w.

(** The [while True] loop of [get_deployment_mode]; the menu is only printed. *)
Fixpoint get_deployment_mode_loop (lines : list string) (w : World)
    : Result (option string) * World :=
  match lines with
  | [] => (Raise (Exn EOFError "EOF when reading a line"), set_input [] w)
  | line :: rest =>
      let choice := upper line in
      if (choice =? "")%string || (choice =? "I")%string
      then (Ok (Some "Incremental"), set_input rest w)
      else if (choice =? "C")%string then
        match rest with
        | [] => (Raise (Exn EOFError "EOF when reading a line"), set_input [] w)
        | line2 :: rest2 =>
            let confirm := upper line2 in
            if (confirm =? "Y")%string then (Ok (Some "Complete"), set_input rest2 w)
            else get_deployment_mode_loop rest2 w
        end
      else if (choice =? "Q")%string then (Ok None, set_input rest w)
      else get_deployment_mode_loop rest w
  end.

Definition get_deployment_mode : M (option string) :=
  λ w, get_deployment_mode_loop (w_input w) w.

(** Lines 163-185 of [deploy_bicep_template]: deploy and record the outcome. *)
Definition deploy_step (template_file : Path) (mode template_name resource_group : string)
    (parameters_file : option Path) : M DeployResult :=
  '(success, deploy_message) <-
    show_progress_spinner ("Deploying " ++ template_name)
      (call_tool (λ w, w_deploy w resource_group template_file parameters_file mode)) ;;
  if success : bool then
    log ("Successfully deployed " ++ template_name) ;;
    update_deployment_history template_file true None ;;
    ret RTrue
  else
    let error_msg := "Deployment failed: " ++ deploy_message in
    log error_msg ;;
    update_deployment_history template_file false (Some error_msg) ;;
    ret RFalse.

(** Lines 122-138: whether this call validates. *)
Definition should_validate (skip_validation : bool) (validation_mode : string)
    (template_needs_redeployment : bool) : bool :=
  if skip_validation then false
  else if (validation_mode =? "All")%string then true
  else if (validation_mode =? "Changed")%string then template_needs_redeployment
  else false.

(** Lines 122-185: validate if needed, then deploy. *)
Definition validate_and_deploy (template_file : Path) (mode template_name resource_group : string)
    (parameters_file : option Path) (skip_validation : bool) (validation_mode : string)
    (template_needs_redeployment : bool) : M DeployResult :=
  if should_validate skip_validation validation_mode template_needs_redeployment then
    '(is_valid, validation_message) <-
      show_progress_spinner ("Validating " ++ template_name)
        (call_tool (λ w, w_validate w resource_group template_file parameters_file)) ;;
    if negb is_valid then
      let error_msg := "Template validation failed: " ++ validation_message in
      log error_msg ;;
      update_deployment_history template_file false (Some error_msg) ;;
      ret RFalse
    else deploy_step template_file mode template_name resource_group parameters_file
  else deploy_step template_file mode template_name resource_group parameters_file.

(** Lines 113-120: whether the call stops here with "skipped". *)
Definition check_unchanged (template_file : Path) (template_name skip_unchanged : string)
    : M bool :=
  template_changed <- lift (λ w, test_template_modified w template_file) ;;
  if negb template_changed then
    action <- (if (skip_unchanged =? "prompt")%string
               then confirm_deploy_unchanged template_name
               else ret skip_unchanged) ;;
    if (action =? "skip")%string then
      log ("Skipped " ++ template_name ++ " (unchanged)") ;;
      ret true
    else ret false
  else ret false.

(** The [try] block of [deploy_bicep_template]. *)
Definition deploy_bicep_template_try (template_file : Path) (mode template_name
    resource_group : string) (parameters_file : option Path) (skip_unchanged : string)
    (skip_validation : bool) (validation_mode : string) (template_needs_redeployment : bool)
    : M DeployResult :=
  st <- lift (λ w, stat w template_file) ;;
  if (df_size st =? 0)%Z then
    let error_msg := "Cannot deploy empty template file: " ++ template_name in
    log error_msg ;;
    update_deployment_history template_file false (Some error_msg) ;;
    ret RFalse
  else
    skipped <- check_unchanged template_file template_name skip_unchanged ;;
    if skipped : bool then ret RSkipped
    else validate_and_deploy template_file mode template_name resource_group
           parameters_file skip_validation validation_mode template_needs_redeployment.

Definition deploy_bicep_template (template_file : Path) (mode template_name
    resource_group : string) (parameters_file : option Path) (skip_unchanged : string)
    (skip_validation : bool) (validation_mode : string) (template_needs_redeployment : bool)
    : M DeployResult :=
  try_except
    (deploy_bicep_template_try template_file mode template_name resource_group
       parameters_file skip_unchanged skip_validation validation_mode
       template_needs_redeployment)
    (λ e,
       let error_msg := "Unexpected error during deployment: " ++ str_of e in
       log error_msg ;;
       update_deployment_history template_file false (Some error_msg) ;;
       ret RFalse).

(** The [for] loop of [validate_all_templates], with its two counters. *)
Fixpoint validate_all_templates_loop (resource_group : string) (parameters_file : option Path)
    (enabled_templates : list BicepTemplate.t) (successful_validations failed_validations : nat)
    : M (nat * nat) :=
  match enabled_templates with
  | [] => ret (successful_validations, failed_validations)
  | template :: rest =>
      '(successful_validations, failed_validations) <-
        try_except
          ('(is_valid, validation_message) <-
             show_progress_spinner ("Validating " ++ BicepTemplate.name template)
               (call_tool (λ w, w_validate w resource_group (BicepTemplate.file template)
                                  parameters_file)) ;;
           if is_valid : bool then
             log "validation successful" ;;
             update_validation_history (BicepTemplate.file template) true None ;;
             ret (S successful_validations, failed_validations)
           else
             log "validation failed" ;;
             update_validation_history (BicepTemplate.file template) false
               (Some validation_message) ;;
             ret (successful_validations, S failed_validations))
          (λ e,
             log "validation error" ;;
             update_validation_history (BicepTemplate.file template) false
               (Some (str_of e)) ;;
             ret (successful_validations, S failed_validations)) ;;
      validate_all_templates_loop resource_group parameters_file rest
        successful_validations failed_validations
  end.

Definition validate_all_templates (templates : list BicepTemplate.t) (resource_group : string)
    (parameters_file : option Path) : M (nat * nat) :=
  let enabled_templates :=
    List.filter (λ t, truthy (BicepTemplate.enabled t) && (0 <? BicepTemplate.size t)%Z)
      templates in
  match enabled_templates with
  | [] => log "No enabled templates found for validation" ;; ret (0, 0)%nat
  | _ => validate_all_templates_loop resource_group parameters_file enabled_templates 0 0
  end.

(** Bulk validation ahead of [deploy_all_templates] (lines 259-304): [None] when
    the operator cancels after failed validations, otherwise
    [skip_individual_validation]. *)
Definition bulk_validation (to_validate : list BicepTemplate.t) (resource_group : string)
    (parameters_file : option Path) : M (option bool) :=
  '(successful_validations, failed_validations) <-
    validate_all_templates to_validate resource_group parameters_file ;;
  if (0 <? failed_validations)%nat then
    continue_choice <- input ;;
    if negb (upper continue_choice =? "Y")%string
    then log "Deployment cancelled due to validation failures" ;; ret None
    else ret (Some true)
  else ret (Some true).

Definition validation_phase (templates enabled_templates : list BicepTemplate.t)
    (resource_group : string) (parameters_file : option Path) (validation_mode : string)
    : M (option bool) :=
  if (validation_mode =? "All")%string then
    bulk_validation templates resource_group parameters_file
  else if (validation_mode =? "Changed")%string then
    let changed_templates :=
      List.filter (λ t, BicepTemplate.needs_redeployment t) enabled_templates in
    match changed_templates with
    | [] => log "No changed templates found, proceeding with deployment..." ;; ret (Some false)
    | _ => bulk_validation changed_templates resource_group parameters_file
    end
  else log "Skipping validation (Validation Mode: Skip)..." ;; ret (Some true).

(** Lines 345-376: deploy one item of the batch, count it, and on failure ask
    whether to go on; [next] is the rest of the loop. *)
Definition attempt_item (mode resource_group : string) (parameters_file : option Path)
    (skip_individual_validation : bool) (validation_mode : string) (i : nat)
    (template : BicepTemplate.t) (next : nat → nat → M (nat * nat))
    (successful_deployments failed_deployments : nat) : M (nat * nat) :=
  let template_mode := if (i =? 1)%nat then mode else "Incremental" in
  skip_unchanged <- lift (λ w,
    Ok (if (w_skip_unchanged_global w =? "prompt")%string then "prompt"
        else w_skip_unchanged_global w)) ;;
  result <- deploy_bicep_template (BicepTemplate.file template) template_mode
              (BicepTemplate.name template) resource_group parameters_file
              skip_unchanged skip_individual_validation validation_mode
              (BicepTemplate.needs_redeployment template) ;;
  modify (add_event (EvAttempt i (BicepTemplate.name template) result)) ;;
  match result with
  | RTrue => next (S successful_deployments) failed_deployments
  | RSkipped => next (S successful_deployments) failed_deployments
  | RFalse =>
      continue_choice <- input ;;
      if (upper continue_choice =? "N")%string then
        log "Batch deployment cancelled by user" ;;
        modify (add_event (EvHalt i)) ;;
        ret (successful_deployments, S failed_deployments)
      else next successful_deployments (S failed_deployments)
  end.

(** The [for i, template in enumerate(enabled_templates, 1)] loop of
    [deploy_all_templates] (lines 327-376). *)
Fixpoint deploy_all_templates_loop (mode resource_group : string)
    (parameters_file : option Path) (skip_individual_validation : bool)
    (validation_mode : string) (i : nat) (enabled_templates : list BicepTemplate.t)
    (successful_deployments failed_deployments : nat) : M (nat * nat) :=
  match enabled_templates with
  | [] => ret (successful_deployments, failed_deployments)
  | template :: rest =>
      let next := deploy_all_templates_loop mode resource_group parameters_file
                    skip_individual_validation validation_mode (S i) rest in
      if truthy (BicepTemplate.last_deployment_error template)
         && negb (truthy (BicepTemplate.last_deployment_success template)) then
        continue_choice <- input ;;
        if (upper continue_choice =? "N")%string then
          log "Skipped (user choice)" ;;
          modify (add_event (EvDeclinedItem i (BicepTemplate.name template))) ;;
          next successful_deployments failed_deployments
        else attempt_item mode resource_group parameters_file skip_individual_validation
               validation_mode i template next successful_deployments failed_deployments
      else attempt_item mode resource_group parameters_file skip_individual_validation
             validation_mode i template next successful_deployments failed_deployments
  end.

Definition deploy_all_templates (templates : list BicepTemplate.t) (resource_group : string)
    (parameters_file : option Path) (validation_mode : string) : M (nat * nat) :=
  let enabled_templates := List.filter (λ t, truthy (BicepTemplate.enabled t)) templates in
  match enabled_templates with
  | [] => log "No enabled templates found for deployment" ;; ret (0, 0)%nat
  | _ =>
      proceed <- validation_phase templates enabled_templates resource_group parameters_file
                validation_mode ;;
      match proceed with
      | None => ret (0, 0)%nat
      | Some skip_individual_validation =>
          mode <- get_deployment_mode ;;
          match mode with
          | None => log "Deployment cancelled by user" ;; ret (0, 0)%nat
          | Some mode =>
              modify (set_skip_unchanged_global "prompt") ;;
              deploy_all_templates_loop mode resource_group parameters_file
                skip_individual_validation validation_mode 1 enabled_templates 0 0
          end
      end
  end.

End WithDatetime.

(** ** More of config.py, bicep_manager.py, main.py and menu.py *)

Section MoreOperations.
Context `{Datetime}.

(** [settings.configuration.get(key, dflt)] after a load: the shape of the
    [get_...] methods of [ConfigManager]. *)
Definition get_configuration_value (key : string) (dflt : pyval) (w : World)
    : Result pyval :=
  rbind (load_deployment_settings w) (λ settings,
  Ok (get_default (configuration settings) key dflt)).

(** [settings.configuration[key] = value] between a load and a save: the shape
    of the [set_...] methods. *)
Definition set_configuration_value (key : string) (value : pyval) : M unit :=
  settings <- lift load_deployment_settings ;;
  save_deployment_settings
    {| selected_parameter_file := selected_parameter_file settings;
       last_updated := last_updated settings;
       file_order := file_order settings;
       configuration := <[key := value]> (configuration settings) |}.

Definition get_resource_group (w : World) : Result pyval :=
  get_configuration_value "ResourceGroup" VNone w.

Definition set_resource_group (resource_group : string) : M unit :=
  set_configuration_value "ResourceGroup" (VStr resource_group).

Definition get_console_width (w : World) : Result pyval :=
  get_configuration_value "ConsoleWidth" (VInt 75) w.

Definition set_console_width (width : Z) : M unit :=
  set_configuration_value "ConsoleWidth" (VInt width).

Definition get_validation_mode (w : World) : Result pyval :=
  get_configuration_value "ValidationMode" (VStr "All") w.

Definition set_validation_mode (validation_mode : string) : M unit :=
  set_configuration_value "ValidationMode" (VStr validation_mode).

(** [DeployScript._handle_toggle_validation_mode]; the mode the script holds
    is passed in and the new one returned. *)
Definition _handle_toggle_validation_mode (validation_mode : string) : M string :=
  let validation_mode :=
    if (validation_mode =? "All")%string then "Changed"
    else if (validation_mode =? "Changed")%string then "Skip"
    else "All" in
  set_validation_mode validation_mode ;;
  log ("Validation mode changed to: " ++ validation_mode) ;;
  ret validation_mode.

(** [DeployScript.get_effective_resource_group], with the script's default. *)
Definition get_effective_resource_group (resource_group : string) (w : World)
    : Result pyval :=
  rbind (get_resource_group w) (λ configured_rg,
  Ok (if truthy configured_rg then configured_rg else VStr resource_group)).

(** [BicepManager.set_template_enabled] *)
Definition set_template_enabled (template_name : string) (enabled : bool) : M bool :=
  blocked <- lift (λ w,
    Ok (match find_file w template_name with
        | Some template_file => (df_size template_file =? 0)%Z && enabled
        | None => false
        end)) ;;
  if blocked : bool then
    log ("Cannot enable empty file: " ++ template_name) ;;
    ret false
  else
    settings <- lift load_deployment_settings ;;
    let order :=
      match find_entry [template_name; stem template_name] (file_order settings) with
      | Some i => alter (λ file_entry, <["Enabled" := VBool enabled]> file_entry) i
                    (file_order settings)
      | None =>
          (file_order settings
           ++ [{[ "FileName" := VStr template_name; "Enabled" := VBool enabled ]}])%list
      end in
    save_deployment_settings (with_file_order order settings) ;;
    ret true.

End MoreOperations.

(** The five deployment indicators of the menu: black (empty file), white
    (never deployed), red (failed), yellow (changed) and green circle. *)
Inductive DeploymentIndicator :=
  | BlackCircle | WhiteCircle | RedCircle | YellowCircle | GreenCircle.

Definition _get_deployment_status_indicator (template : BicepTemplate.t)
    : DeploymentIndicator :=
  if (BicepTemplate.size template =? 0)%Z then BlackCircle
  else if is_None (BicepTemplate.last_deployment_success template) then WhiteCircle
  else if is_False (BicepTemplate.last_deployment_success template) then RedCircle
  else if BicepTemplate.needs_redeployment template then YellowCircle
  else GreenCircle.

(** ** Observing the persisted state *)

(** The entry is stored under one of [names]. *)
Definition named (names : list string) (e : dict) : Prop :=
  in_strs (get e "FileName") names = true.

(** The record a file has in the settings file, found the way
    [get_bicep_files] and the update methods find it. *)
Definition persisted_record (w : World) (template_file : Path) : option dict :=
  match load_deployment_settings w with
  | Ok settings =>
      match find_entry [template_file; stem template_file] (file_order settings) with
      | Some i => file_order settings !! i
      | None => None
      end
  | Raise _ => None
  end.

(** One field of that record. *)
Definition persisted_field (w : World) (template_file : Path) (k : string) : option pyval :=
  match persisted_record w template_file with
  | Some e => e !! k
  | None => None
  end.

(** The persisted order; empty when the file cannot be loaded. *)
Definition persisted_order (w : World) : list dict :=
  match load_deployment_settings w with
  | Ok settings => file_order settings
  | Raise _ => []
  end.

(** [w'] differs from [w] at most in what the operator has yet to type and in
    the sticky choice for unchanged templates. *)
Definition same_store (w w' : World) : Prop :=
  w_settings_file w' = w_settings_file w ∧ w_disk w' = w_disk w ∧ w_now w' = w_now w
  ∧ w_validate w' = w_validate w ∧ w_deploy w' = w_deploy w ∧ w_events w' = w_events w.

(** The file's persisted record says its last deployment failed, with a
    non-empty error message. *)
Definition failure_recorded (w : World) (template_file : Path) : Prop :=
  persisted_field w template_file "LastDeploymentSuccess" = Some (VBool false)
  ∧ ∃ error_msg, error_msg ≠ ""
      ∧ persisted_field w template_file "LastDeploymentError" = Some (VStr error_msg).

(** A timestamp field that discovery can read: empty, or a string that
    [datetime.fromisoformat] accepts. *)
Definition iso_or_empty `{Datetime} (v : pyval) : Prop :=
  truthy v = false ∨ ∃ s t, v = VStr s ∧ fromisoformat s = Some t.

(** Every persisted entry has such timestamps, as the entries the program
    itself writes do. *)
Definition well_timed `{Datetime} (w : World) : Prop :=
  ∀ e, e ∈ persisted_order w →
    iso_or_empty (get e "LastDeployment") ∧ iso_or_empty (get e "LastValidation").

(** No persisted entry is stored under exactly this name. *)
Definition unlisted (order : list dict) (name : string) : bool :=
  negb (existsb (λ v, eq_str v name) (map (λ entry, get entry "FileName") order)).

(** Hoare triples for [M]: from a world in [P], [m] ends in [Q] when it
    returns and in [E] when it raises. *)
Definition hoare {A} (P : World → Prop) (m : M A) (Q : A → World → Prop)
    (E : exn → World → Prop) : Prop :=
  ∀ w, P w → match m w with
             | (Ok a, w') => Q a w'
             | (Raise e, w') => E e w'
             end.

(** The four keys [update_deployment_history] writes. *)
Definition deployment_keys : list string :=
  ["LastDeploymentSuccess"; "LastDeployment"; "LastFileHash"; "LastDeploymentError"].

(** The three keys [update_validation_history] writes. *)
Definition validation_keys : list string :=
  ["LastValidationSuccess"; "LastValidation"; "LastValidationError"].

(** ** Reading the history of a batch *)

(** The items counted as successful: deployed or skipped as unchanged. *)
Fixpoint count_successful (tr : list BatchEvent) : nat :=
  match tr with
  | [] => 0
  | EvAttempt _ _ RFalse :: rest => count_successful rest
  | EvAttempt _ _ _ :: rest => S (count_successful rest)
  | _ :: rest => count_successful rest
  end.

(** The items counted as failed. *)
Fixpoint count_failed (tr : list BatchEvent) : nat :=
  match tr with
  | [] => 0
  | EvAttempt _ _ RFalse :: rest => S (count_failed rest)
  | _ :: rest => count_failed rest
  end.

(** The positions of the items [deploy_bicep_template] was called on. *)
Fixpoint attempted (tr : list BatchEvent) : list nat :=
  match tr with
  | [] => []
  | EvAttempt i _ _ :: rest => i :: attempted rest
  | _ :: rest => attempted rest
  end.

(** The histories a batch over [templates], the first at position [i], can
    leave: each item in turn is attempted, or declined by the operator; after
    a failed attempt the operator may halt the batch, and nothing follows a
    halt. A history may stop early, where the run raised. *)
Inductive batch_trace : nat → list BicepTemplate.t → list BatchEvent → Prop :=
  | trace_stop i templates :
      batch_trace i templates []
  | trace_attempt i t templates result tr :
      batch_trace (S i) templates tr →
      batch_trace i (t :: templates) (EvAttempt i (BicepTemplate.name t) result :: tr)
  | trace_halt i t templates :
      batch_trace i (t :: templates)
        [EvAttempt i (BicepTemplate.name t) RFalse; EvHalt i]
  | trace_declined i t templates tr :
      batch_trace (S i) templates tr →
      batch_trace i (t :: templates) (EvDeclinedItem i (BicepTemplate.name t) :: tr).

(** What one run of the batch loop from [w] to [w'] with result [r] did, given
    the counters [s] and [f] it started with. *)
Definition loop_post (i : nat) (templates : list BicepTemplate.t) (s f : nat)
    (w : World) (r : Result (nat * nat)) (w' : World) : Prop :=
  ∃ tr, w_events w' = (w_events w ++ tr)%list
    ∧ batch_trace i templates tr
    ∧ ∀ s' f', r = Ok (s', f') →
        s' = (s + count_successful tr)%nat ∧ f' = (f + count_failed tr)%nat.

(** [m] adds nothing to the history. *)
Definition events_kept {A} (m : M A) : Prop := ∀ w, w_events (m w).2 = w_events w.

(** The settings file is absent, malformed or holds a JSON object. *)
Definition loadable (w : World) : Prop :=
  match w_settings_file w with FileNotObject _ => False | _ => True end.

(** Between [w] and [w'] only validation fields were written: the settings
    file still loads, every entry is where it was and keeps every field other
    than the three validation fields, and disk and batch history are the same. *)
Definition validation_only (w w' : World) : Prop :=
  loadable w'
  ∧ w_disk w' = w_disk w ∧ w_input w' = w_input w ∧ w_events w' = w_events w
  ∧ ∀ i e, persisted_order w !! i = Some e →
      ∃ e', persisted_order w' !! i = Some e' ∧ ∀ k, k ∉ validation_keys → e' !! k = e !! k.

(** What a call of [deploy_bicep_template] on [template_file] that returned
    [result] did between [w] and [w']: a skip found the template unchanged and
    wrote nothing; a success or a failure recorded itself, once, as the last
    thing the call did. *)
Definition deploy_done `{Datetime} (template_file : Path) (result : DeployResult)
    (w w' : World) : Prop :=
  match result with
  | RSkipped => same_store w w' ∧ test_template_modified w template_file = Ok false
  | RTrue =>
      ∃ w1, same_store w w1
        ∧ update_deployment_history template_file true None w1 = (Ok tt, w')
  | RFalse =>
      ∃ w1 error_msg, same_store w w1 ∧ error_msg ≠ ""
        ∧ update_deployment_history template_file false (Some error_msg) w1 = (Ok tt, w')
  end.

(** ** Sample data *)

(** A clock that always reads 09:29:07 on 5 September 2025, second 100 of the
    sample time line. *)
Definition sample_datetime : Datetime :=
  {| strftime := λ _, "2025-09-05 09:29:07";
     strptime := λ s, if (s =? "2025-09-05 09:29:07")%string then Some 100%Z else None;
     fromisoformat := λ s, if (s =? "2025-09-05 09:29:07")%string then Some 100%Z else None |}.

Definition sample_file (name : string) (mtime : Z) (hash : string) : DiskFile :=
  {| df_name := name; df_size := 10; df_mtime := mtime; df_hash := Some hash |}.

(** A world with the given settings file and disk, a silent operator and an
    Azure CLI that accepts everything. *)
Definition sample_world (f : SettingsFile) (disk : list DiskFile) : World :=
  {| w_settings_file := f; w_disk := disk; w_now := 100; w_input := [];
     w_validate := λ _ _ _, Returned true "Template validation successful";
     w_deploy := λ _ _ _ _, Returned true "Deployment successful";
     w_skip_unchanged_global := "prompt"; w_events := [] |}.

(** A settings file that holds the given order and nothing else. *)
Definition sample_settings (order : list dict) : SettingsFile :=
  FileObject {| so_SelectedParameterFile := VNone; so_LastUpdated := VNone;
                so_FileOrder := Some order; so_Configuration := None |}.

(** [main.bicep], whose last deployment failed. *)
Definition sample_failed_record : dict :=
  {[ "FileName" := VStr "main.bicep"; "LastDeploymentSuccess" := VBool false;
     "LastDeploymentError" := VStr "old error" ]}.

(** [main.bicep], deployed successfully with content hash [abc]. *)
Definition sample_deployed_record : dict :=
  {[ "FileName" := VStr "main.bicep"; "LastDeploymentSuccess" := VBool true;
     "LastDeployment" := VStr "2025-09-05 09:29:07"; "LastFileHash" := VStr "abc" ]}.

(** The record of [main.bicep] as older versions stored it, under the stem. *)
Definition sample_stem_record : dict :=
  {[ "FileName" := VStr "main"; "LastDeploymentSuccess" := VBool true;
     "LastDeployment" := VStr "2025-09-05 09:29:07"; "LastFileHash" := VStr "abc" ]}.

(** [main.bicep], known to the settings file but never deployed. *)
Definition sample_bare_record : dict :=
  {[ "FileName" := VStr "main.bicep"; "Enabled" := VBool true ]}.

(** [main.bicep], validated and deployed with content hash [abc]. *)
Definition sample_validated_record : dict :=
  {[ "FileName" := VStr "main.bicep"; "LastValidationSuccess" := VBool true;
     "LastValidation" := VStr "2025-09-05 09:29:07";
     "LastDeploymentSuccess" := VBool true;
     "LastDeployment" := VStr "2025-09-05 09:29:07"; "LastFileHash" := VStr "abc" ]}.

(** The same world with an Azure CLI that rejects every template. *)
Definition sample_world_rejecting (f : SettingsFile) (disk : list DiskFile) : World :=
  {| w_settings_file := f; w_disk := disk; w_now := 100; w_input := [];
     w_validate := λ _ _ _, Returned false "InvalidTemplate";
     w_deploy := λ _ _ _ _, Returned true "Deployment successful";
     w_skip_unchanged_global := "prompt"; w_events := [] |}.

(** An enabled, non-empty template that was never deployed. *)
Definition sample_template (name : string) : BicepTemplate.t :=
  {| BicepTemplate.name := name; BicepTemplate.file := name; BicepTemplate.size := 10;
     BicepTemplate.enabled := VBool true; BicepTemplate.last_modified := 500;
     BicepTemplate.last_deployment_success := VNone;
     BicepTemplate.last_deployment_error := VNone;
     BicepTemplate.last_deployment_time := None;
     BicepTemplate.needs_redeployment := true;
     BicepTemplate.last_file_hash := Some "abc";
     BicepTemplate.last_validation_success := VNone;
     BicepTemplate.last_validation_error := VNone;
     BicepTemplate.last_validation_time := None |}.

(** Three templates and no settings file; the Azure CLI fails to deploy
    [b.bicep]; the operator accepts the default mode and then answers "n". *)
Definition sample_world_batch : World :=
  {| w_settings_file := FileAbsent;
     w_disk := [sample_file "a.bicep" 500 "abc"; sample_file "b.bicep" 500 "abc";
                sample_file "c.bicep" 500 "abc"];
     w_now := 100; w_input := [""; "n"];
     w_validate := λ _ _ _, Returned true "Template validation successful";
     w_deploy := λ _ f _ _, if (f =? "b.bicep")%string
                            then Returned false "InvalidTemplate"
                            else Returned true "Deployment successful";
     w_skip_unchanged_global := "prompt"; w_events := [] |}.

(** The sample world with an operator who will type [lines]. *)
Definition sample_world_typing (f : SettingsFile) (disk : list DiskFile)
    (lines : list string) : World :=
  set_input lines (sample_world f disk).

(** * Properties *)

Lemma dict_truthy_true (d : dict) : dict_truthy d = true ↔ d ≠ ∅.
Proof.
  unfold dict_truthy. rewrite <- (map_to_list_empty_iff d).
  destruct (map_to_list d); split; intros; congruence.
Qed.

Lemma dict_truthy_lookup (d : dict) k v : d !! k = Some v → dict_truthy d = true.
Proof.
  intros Hk. apply dict_truthy_true. intros ->. by rewrite lookup_empty in Hk.
Qed.

Lemma get_not_None_truthy (d : dict) k : get d k ≠ VNone → dict_truthy d = true.
Proof.
  unfold get. destruct (d !! k) eqn:Hk; simpl; [|congruence].
  intros _. by eapply dict_truthy_lookup.
Qed.

Section ChangeDetector.
Context `{Datetime}.

(** C1. With a successful last deployment on record and both hashes present
    (the fresh one a non-empty digest, the persisted one a truthy value), the
    detector answers "the hashes differ" and returns the fresh hash. The answer
    does not mention the recorded deployment time, the file's modification
    time or the clock, and is the same for any other record and world that
    agree on the outcome and the two hashes. *)
Theorem C1_hash_comparison_is_authoritative (w : World) (template_file : Path)
    (file_settings : dict) (current_hash : string) :
  get file_settings "LastDeploymentSuccess" = VBool true →
  _get_current_file_hash w template_file = Some current_hash →
  current_hash ≠ "" →
  truthy (get file_settings "LastFileHash") = true →
  _determine_deployment_status w template_file (Some file_settings)
    = Ok (negb (eq_str (get file_settings "LastFileHash") current_hash), Some current_hash)
  ∧ ∀ (w' : World) (file_settings' : dict),
      get file_settings' "LastDeploymentSuccess" = VBool true →
      get file_settings' "LastFileHash" = get file_settings "LastFileHash" →
      _get_current_file_hash w' template_file = Some current_hash →
      _determine_deployment_status w' template_file (Some file_settings')
        = _determine_deployment_status w template_file (Some file_settings).
Proof.
  assert (Hmain : ∀ w0 (fs : dict),
    get fs "LastDeploymentSuccess" = VBool true →
    _get_current_file_hash w0 template_file = Some current_hash →
    current_hash ≠ "" →
    truthy (get fs "LastFileHash") = true →
    _determine_deployment_status w0 template_file (Some fs)
      = Ok (negb (eq_str (get fs "LastFileHash") current_hash), Some current_hash)).
  { intros w0 fs Hs Hh Hne Ht. unfold _determine_deployment_status.
    rewrite (get_not_None_truthy fs "LastDeploymentSuccess") by (rewrite Hs; discriminate).
    rewrite Hs, Hh, Ht. simpl.
    destruct (String.eqb_spec current_hash "") as [->|_]; [congruence|]. simpl.
    by destruct (eq_str _ _). }
  intros Hs Hh Hne Ht. split; [by apply Hmain|].
  intros w' fs' Hs' Hl' Hh'.
  rewrite (Hmain w file_settings) by done.
  rewrite (Hmain w' fs'), Hl'; congruence.
Qed.

(** C2. A record whose last deployment outcome is [False] always needs
    redeployment, whatever the hashes, the timestamps and the disk say. *)
Theorem C2_failed_deployment_is_retried (w : World) (template_file : Path)
    (file_settings : dict) :
  get file_settings "LastDeploymentSuccess" = VBool false →
  _determine_deployment_status w template_file (Some file_settings)
    = Ok (true, _get_current_file_hash w template_file).
Proof.
  intros Hs. unfold _determine_deployment_status.
  destruct (dict_truthy file_settings); simpl; [|done]. by rewrite Hs.
Qed.

(** C3. No record: needs redeployment. A record (any non-empty entry, as every
    entry found by name is) whose outcome is unset, absent or [null]: does not
    need redeployment. Neither answer looks at hashes or timestamps. The same
    holds of [test_template_modified], which looks the record up by name. *)
Theorem C3_never_deployed_states (w : World) (template_file : Path) :
  _determine_deployment_status w template_file None
    = Ok (true, _get_current_file_hash w template_file)
  ∧ (∀ file_settings : dict,
      file_settings ≠ ∅ →
      get file_settings "LastDeploymentSuccess" = VNone →
      _determine_deployment_status w template_file (Some file_settings)
        = Ok (false, _get_current_file_hash w template_file))
  ∧ (∀ settings,
      load_deployment_settings w = Ok settings →
      List.find (λ f, in_strs (get f "FileName") [template_file; stem template_file])
        (file_order settings) = None →
      test_template_modified w template_file = Ok true)
  ∧ (∀ settings file_settings,
      load_deployment_settings w = Ok settings →
      List.find (λ f, in_strs (get f "FileName") [template_file; stem template_file])
        (file_order settings) = Some file_settings →
      get file_settings "LastDeploymentSuccess" = VNone →
      test_template_modified w template_file = Ok false).
Proof.
  assert (Hunset : ∀ fs : dict, fs ≠ ∅ → get fs "LastDeploymentSuccess" = VNone →
    _determine_deployment_status w template_file (Some fs)
      = Ok (false, _get_current_file_hash w template_file)).
  { intros fs Hne Hs. unfold _determine_deployment_status.
    apply dict_truthy_true in Hne. by rewrite Hne, Hs. }
  split; [done|]. split; [done|]. split.
  - intros settings Hl Hf. unfold test_template_modified.
    rewrite Hl. cbn [rbind]. by rewrite Hf.
  - intros settings fs Hl Hf Hs. unfold test_template_modified.
    rewrite Hl. cbn [rbind]. rewrite Hf, Hunset; [done| |done].
    apply find_some in Hf as [_ Hin]. intros ->.
    unfold get in Hin. by rewrite lookup_empty in Hin.
Qed.

End ChangeDetector.

(** ** The settings file *)

Lemma load_loadable (w : World) :
  loadable w → ∃ settings, load_deployment_settings w = Ok settings.
Proof.
  unfold loadable, load_deployment_settings.
  destruct (w_settings_file w); intros Hl; [by eexists..|done|by eexists].
Qed.

Lemma load_absent_or_malformed (w : World) :
  w_settings_file w = FileAbsent ∨ w_settings_file w = FileMalformed →
  load_deployment_settings w = Ok default_settings.
Proof. unfold load_deployment_settings. by intros [-> | ->]. Qed.

Lemma load_raises_iff (w : World) :
  (∃ e, load_deployment_settings w = Raise e) ↔ ¬ loadable w.
Proof.
  unfold loadable, load_deployment_settings.
  destruct (w_settings_file w); split; try (intros [e He]; done); try tauto.
  intros _. by eexists.
Qed.

(** C7. A settings file that holds the JSON document [[]] is neither absent
    nor rejected by the parser; the loader then calls [.get] on a list, and the
    [AttributeError] leaves [load_deployment_settings]: no default settings are
    returned. *)
Theorem C7_load_raises_on_json_array :
  load_deployment_settings (sample_world (FileNotObject (JArray [])) [])
    = Raise (Exn AttributeError "object has no attribute 'get'").
Proof. reflexivity. Qed.

(** ** Finding a file's entry *)

Section FindEntry.
Variable names : list string.

Lemma find_entry_loop_first (l : list dict) (k i0 : nat) (s : option nat) (e : dict) :
  l !! k = Some e → named names e → has_history e = true →
  (∀ j e', (j < k)%nat → l !! j = Some e' → named names e' → has_history e' = false) →
  ∃ s', find_entry_loop names l i0 s = (Some (i0 + k)%nat, s').
Proof.
  revert k i0 s. induction l as [|x l IH]; intros k i0 s Hk Hn Hh Hbefore; [done|].
  destruct k as [|k]; simpl in *.
  - injection Hk as ->. rewrite Hn, Hh. rewrite Nat.add_0_r. by eexists.
  - destruct (in_strs (get x "FileName") names) eqn:Hx.
    + rewrite (Hbefore 0%nat x) by (done || lia).
      destruct (IH k (S i0) (Some i0) Hk Hn Hh) as [s' Hs'].
      { intros j e' Hj. apply (Hbefore (S j)). lia. }
      rewrite Hs'. replace (S i0 + k)%nat with (i0 + S k)%nat by lia. by eexists.
    + destruct (IH k (S i0) s Hk Hn Hh) as [s' Hs'].
      { intros j e' Hj. apply (Hbefore (S j)). lia. }
      rewrite Hs'. replace (S i0 + k)%nat with (i0 + S k)%nat by lia. by eexists.
Qed.

Lemma find_entry_first (l : list dict) (k : nat) (e : dict) :
  l !! k = Some e → named names e → has_history e = true →
  (∀ j e', (j < k)%nat → l !! j = Some e' → named names e' → has_history e' = false) →
  find_entry names l = Some k.
Proof.
  intros Hk Hn Hh Hbefore. unfold find_entry.
  destruct (find_entry_loop_first l k 0 None e Hk Hn Hh Hbefore) as [s' ->].
  by destruct s'.
Qed.

(** What the loop returns: a first entry with history, or else the last
    entry without, or else nothing. *)
Lemma find_entry_loop_spec (l : list dict) (i0 : nat) (s : option nat) :
  match find_entry_loop names l i0 s with
  | (Some k, _) =>
      ∃ j e, k = (i0 + j)%nat ∧ l !! j = Some e ∧ named names e ∧ has_history e = true
        ∧ ∀ j' e', (j' < j)%nat → l !! j' = Some e' → named names e' → has_history e' = false
  | (None, s') =>
      (∀ j e, l !! j = Some e → named names e → has_history e = false)
      ∧ ((s' = s ∧ ∀ j e, l !! j = Some e → ¬ named names e)
         ∨ ∃ j e, s' = Some (i0 + j)%nat ∧ l !! j = Some e ∧ named names e)
  end.
Proof.
  revert i0 s. induction l as [|x l IH]; intros i0 s; simpl.
  - split; [done|]. left. split; [done|]. by intros j e.
  - destruct (in_strs (get x "FileName") names) eqn:Hx.
    + destruct (has_history x) eqn:Hh.
      * exists 0%nat, x. rewrite Nat.add_0_r. repeat split; try done. intros; lia.
      * specialize (IH (S i0) (Some i0)).
        destruct (find_entry_loop names l (S i0) (Some i0)) as [[k|] s'].
        -- destruct IH as (j & e & -> & Hj & Hn & Hhe & Hb).
           exists (S j), e. repeat split; try done; [lia|].
           intros [|j'] e' Hlt He' Hn'; simpl in He'; [congruence|].
           apply (Hb j' e'); [lia|done..].
        -- destruct IH as [Hno Hs]. split.
           ++ intros [|j] e He Hn; simpl in He; [congruence|]. by apply (Hno j e).
           ++ right. destruct Hs as [[-> _]|(j & e & -> & Hj & Hn)].
              ** exists 0%nat, x. by rewrite Nat.add_0_r.
              ** exists (S j), e. repeat split; try done. f_equal; lia.
    + specialize (IH (S i0) s).
      destruct (find_entry_loop names l (S i0) s) as [[k|] s'].
      * destruct IH as (j & e & -> & Hj & Hn & Hhe & Hb).
        exists (S j), e. repeat split; try done; [lia|].
        intros [|j'] e' Hlt He' Hn'; simpl in He'.
        -- injection He' as <-. unfold named in Hn'. congruence.
        -- apply (Hb j' e'); [lia|done..].
      * destruct IH as [Hno Hs]. split.
        -- intros [|j] e He Hn; simpl in He.
           ++ injection He as <-. unfold named in Hn. congruence.
           ++ by apply (Hno j e).
        -- destruct Hs as [[-> Hnone]|(j & e & -> & Hj & Hn)].
           ++ left. split; [done|]. intros [|j] e He; simpl in He.
              ** injection He as <-. unfold named. congruence.
              ** by apply (Hnone j e).
           ++ right. exists (S j), e. repeat split; try done. f_equal; lia.
Qed.

Lemma find_entry_Some (l : list dict) (k : nat) :
  find_entry names l = Some k →
  ∃ e, l !! k = Some e ∧ named names e
    ∧ ∀ j e', (j < k)%nat → l !! j = Some e' → named names e' → has_history e' = false.
Proof.
  unfold find_entry. pose proof (find_entry_loop_spec l 0 None) as Hspec.
  destruct (find_entry_loop names l 0 None) as [[i|] s'].
  - destruct Hspec as (j & e & -> & Hj & Hn & _ & Hb). intros [= <-]. by exists e.
  - destruct Hspec as [Hno [[-> _]|(j & e & -> & Hj & Hn)]]; [done|].
    intros [= <-]. exists e. repeat split; try done.
    intros j' e' _ He' Hn'. by apply (Hno j' e').
Qed.

Lemma find_entry_None (l : list dict) :
  find_entry names l = None → ∀ j e, l !! j = Some e → ¬ named names e.
Proof.
  unfold find_entry. pose proof (find_entry_loop_spec l 0 None) as Hspec.
  destruct (find_entry_loop names l 0 None) as [[i|] s']; [done|].
  destruct Hspec as [_ [[_ Hnone]|(j & e & -> & _)]]; done.
Qed.

End FindEntry.

Lemma named_new_entry (f : Path) : named [f; stem f] (new_entry f).
Proof.
  unfold named, new_entry, get. rewrite lookup_insert_eq. simpl.
  by rewrite String.eqb_refl.
Qed.

Lemma find_or_create_found (f : Path) (l : list dict) :
  ∃ e, (find_or_create f l).1 !! (find_or_create f l).2 = Some e
    ∧ named [f; stem f] e
    ∧ (∀ j e', (j < (find_or_create f l).2)%nat →
         (find_or_create f l).1 !! j = Some e' →
         named [f; stem f] e' → has_history e' = false)
    ∧ match find_entry [f; stem f] l with
      | Some i => find_or_create f l = (l, i)
      | None => find_or_create f l = ((l ++ [new_entry f])%list, length l) ∧ e = new_entry f
      end.
Proof.
  unfold find_or_create. destruct (find_entry [f; stem f] l) as [i|] eqn:Hf; simpl.
  - destruct (find_entry_Some _ _ _ Hf) as (e & He & Hn & Hb). exists e. by repeat split.
  - exists (new_entry f). repeat split.
    + by rewrite list_lookup_middle.
    + apply named_new_entry.
    + intros j e' Hj He' Hn'. rewrite lookup_app_l in He' by done.
      by destruct (find_entry_None _ _ Hf j e' He').
Qed.

(** After an update that keeps the name and leaves history, the search finds
    the updated entry again. *)
Lemma find_entry_after_update (upd : dict → dict) (f : Path) (l : list dict) :
  (∀ e, get (upd e) "FileName" = get e "FileName") →
  (∀ e, has_history (upd e) = true) →
  ∃ e, (find_or_create f l).1 !! (find_or_create f l).2 = Some e
    ∧ find_entry [f; stem f]
        (alter upd (find_or_create f l).2 (find_or_create f l).1)
      = Some (find_or_create f l).2
    ∧ alter upd (find_or_create f l).2 (find_or_create f l).1 !! (find_or_create f l).2
      = Some (upd e).
Proof.
  intros Hname Hhist.
  destruct (find_or_create_found f l) as (e & He & Hn & Hb & _).
  exists e. split; [done|].
  assert (Hat : alter upd (find_or_create f l).2 (find_or_create f l).1
                  !! (find_or_create f l).2 = Some (upd e)).
  { by rewrite list_lookup_alter_eq, He. }
  split; [|done].
  eapply find_entry_first; [exact Hat| | |].
  - unfold named. by rewrite Hname.
  - apply Hhist.
  - intros j e' Hj He'. rewrite list_lookup_alter_ne in He' by lia. by apply (Hb j).
Qed.

Lemma deployment_update_FileName success now h msg (e : dict) :
  get (deployment_update success now h msg e) "FileName" = get e "FileName".
Proof.
  unfold deployment_update, get.
  destruct (truthy_str msg); by simplify_map_eq.
Qed.

Lemma deployment_update_success success now h msg (e : dict) :
  deployment_update success now h msg e !! "LastDeploymentSuccess" = Some (VBool success).
Proof.
  unfold deployment_update.
  destruct (truthy_str msg); by simplify_map_eq.
Qed.

Lemma deployment_update_history success now h msg (e : dict) :
  has_history (deployment_update success now h msg e) = true.
Proof.
  unfold has_history, has_key. simpl. rewrite deployment_update_success.
  by rewrite !orb_true_r.
Qed.

Lemma deployment_update_error success now h msg (e : dict) :
  deployment_update success now h msg e !! "LastDeploymentError"
    = if truthy_str msg then Some (of_opt_str msg) else None.
Proof.
  unfold deployment_update. destruct (truthy_str msg).
  - by rewrite lookup_insert_eq.
  - by rewrite lookup_delete_eq.
Qed.

(** The update writes four keys and no other. *)
Lemma deployment_update_frame success now h msg (e : dict) (k : string) :
  k ≠ "LastDeploymentSuccess" → k ≠ "LastDeployment" → k ≠ "LastFileHash" →
  k ≠ "LastDeploymentError" →
  deployment_update success now h msg e !! k = e !! k.
Proof.
  intros H1 H2 H3 H4. unfold deployment_update.
  destruct (truthy_str msg); by simplify_map_eq.
Qed.

Section Recording.
Context `{Datetime}.

Lemma load_after_save (settings : DeploymentSettings) (w : World) :
  ∃ w', save_deployment_settings settings w = (Ok tt, w')
    ∧ loadable w'
    ∧ persisted_order w' = file_order settings
    ∧ w' = set_settings_file (w_settings_file w') w.
Proof. eexists. split; [reflexivity|]. by repeat split. Qed.

(** [update_deployment_history] on a loadable settings file returns, and the
    file then holds the order with the file's entry updated. *)
Lemma update_deployment_history_run (w : World) (f : Path) (success : bool)
    (msg : option string) :
  loadable w →
  ∃ w',
    update_deployment_history f success msg w = (Ok tt, w')
    ∧ loadable w'
    ∧ w' = set_settings_file (w_settings_file w') w
    ∧ persisted_order w'
      = alter (deployment_update success (strftime (w_now w))
                 (_get_current_file_hash w f) msg)
          (find_or_create f (persisted_order w)).2
          (find_or_create f (persisted_order w)).1.
Proof.
  intros Hl. destruct (load_loadable w Hl) as [settings Hs].
  unfold update_deployment_history, bind, lift, persisted_order. rewrite Hs.
  destruct (find_or_create f (file_order settings)) as [order i] eqn:Hfc. simpl.
  eexists. split; [reflexivity|]. by repeat split.
Qed.

Lemma update_deployment_history_record (w : World) (f : Path) (success : bool)
    (msg : option string) :
  loadable w →
  ∃ w' e,
    update_deployment_history f success msg w = (Ok tt, w')
    ∧ loadable w'
    ∧ w' = set_settings_file (w_settings_file w') w
    ∧ (find_or_create f (persisted_order w)).1 !! (find_or_create f (persisted_order w)).2
      = Some e
    ∧ persisted_record w' f
      = Some (deployment_update success (strftime (w_now w))
                (_get_current_file_hash w f) msg e).
Proof.
  intros Hl. destruct (update_deployment_history_run w f success msg Hl)
    as (w' & Hrun & Hl' & Hw' & Hord).
  destruct (find_entry_after_update
    (deployment_update success (strftime (w_now w)) (_get_current_file_hash w f) msg)
    f (persisted_order w)) as (e & He & Hfind & Hat).
  { intros. apply deployment_update_FileName. }
  { intros. apply deployment_update_history. }
  exists w', e. repeat split; try done.
  unfold persisted_record. unfold persisted_order in Hord at 1.
  destruct (load_loadable w' Hl') as [settings' Hs']. rewrite Hs' in *.
  by rewrite Hord, Hfind, Hat.
Qed.

End Recording.

(** ** Change detector: instances *)

Lemma C1_witness :
  let w := sample_world (sample_settings [sample_deployed_record])
             [sample_file "main.bicep" 500 "def"] in
  @_determine_deployment_status sample_datetime w "main.bicep" (Some sample_deployed_record)
    = Ok (true, Some "def").
Proof.
  intros w.
  refine (proj1 (@C1_hash_comparison_is_authoritative sample_datetime w "main.bicep"
                   sample_deployed_record "def" _ _ _ _)).
  - reflexivity.
  - reflexivity.
  - discriminate.
  - reflexivity.
Defined.

Lemma C2_witness :
  let w := sample_world (sample_settings [sample_failed_record])
             [sample_file "main.bicep" 500 "def"] in
  @_determine_deployment_status sample_datetime w "main.bicep" (Some sample_failed_record)
    = Ok (true, Some "def").
Proof.
  intros w.
  refine (@C2_failed_deployment_is_retried sample_datetime w "main.bicep"
            sample_failed_record _).
  reflexivity.
Defined.

Lemma C3_witness :
  let w := sample_world (sample_settings [sample_bare_record])
             [sample_file "main.bicep" 500 "def"] in
  @_determine_deployment_status sample_datetime w "main.bicep" (Some sample_bare_record)
    = Ok (false, Some "def")
  ∧ @test_template_modified sample_datetime w "main.bicep" = Ok false
  ∧ @test_template_modified sample_datetime w "other.bicep" = Ok true.
Proof.
  intros w.
  destruct (@C3_never_deployed_states sample_datetime w "main.bicep") as (_ & H2 & _ & H4).
  destruct (@C3_never_deployed_states sample_datetime w "other.bicep") as (_ & _ & H3 & _).
  split; [|split].
  - apply H2; [|reflexivity].
    intros He. apply (f_equal (λ d : dict, d !! "FileName")) in He. vm_compute in He.
    discriminate.
  - eapply H4; reflexivity.
  - eapply H3; reflexivity.
Defined.

(** ** Recording a deployment *)

Section RecordDeployment.
Context `{Datetime}.

(** C5 (amended). On a loadable settings file [update_deployment_history]
    returns and leaves the file's record with the outcome it was given; the
    stored error message is the new one when a non-empty message is supplied,
    whatever the outcome, and is removed otherwise. Recording a success, then
    a failure with "boom", leaves outcome [False] and error "boom"; recording
    a success after that removes the error. *)
Theorem C5_record_deployment_error_message (w : World) (f : Path) (success : bool)
    (error_message : option string) :
  loadable w →
  (∃ w' e,
     update_deployment_history f success error_message w = (Ok tt, w')
     ∧ loadable w'
     ∧ persisted_record w' f = Some e
     ∧ e !! "LastDeploymentSuccess" = Some (VBool success)
     ∧ e !! "LastDeploymentError"
       = if truthy_str error_message then Some (of_opt_str error_message) else None)
  ∧ (∃ w1 w2 w3 e2 e3,
       update_deployment_history f true None w = (Ok tt, w1)
       ∧ update_deployment_history f false (Some "boom") w1 = (Ok tt, w2)
       ∧ persisted_record w2 f = Some e2
       ∧ e2 !! "LastDeploymentSuccess" = Some (VBool false)
       ∧ e2 !! "LastDeploymentError" = Some (VStr "boom")
       ∧ update_deployment_history f true None w2 = (Ok tt, w3)
       ∧ persisted_record w3 f = Some e3
       ∧ e3 !! "LastDeploymentSuccess" = Some (VBool true)
       ∧ e3 !! "LastDeploymentError" = None).
Proof.
  assert (Hstep : ∀ w success error_message, loadable w →
    ∃ w' e,
      update_deployment_history f success error_message w = (Ok tt, w')
      ∧ loadable w'
      ∧ persisted_record w' f = Some e
      ∧ e !! "LastDeploymentSuccess" = Some (VBool success)
      ∧ e !! "LastDeploymentError"
        = if truthy_str error_message then Some (of_opt_str error_message) else None).
  { intros w0 s m Hl.
    destruct (update_deployment_history_record w0 f s m Hl)
      as (w' & e & Hrun & Hl' & _ & _ & Hrec).
    eexists w', _. repeat split; [exact Hrun|exact Hl'|exact Hrec|..].
    - apply deployment_update_success.
    - apply deployment_update_error. }
  intros Hl. split; [by apply Hstep|].
  destruct (Hstep w true None Hl) as (w1 & e1 & Hr1 & Hl1 & _).
  destruct (Hstep w1 false (Some "boom") Hl1) as (w2 & e2 & Hr2 & Hl2 & Hrec2 & Hs2 & He2).
  destruct (Hstep w2 true None Hl2) as (w3 & e3 & Hr3 & Hl3 & Hrec3 & Hs3 & He3).
  exists w1, w2, w3, e2, e3. by repeat split.
Qed.

End RecordDeployment.

Lemma C5_witness :
  let w := sample_world (sample_settings [sample_failed_record])
             [sample_file "main.bicep" 500 "def"] in
  ∃ w' e,
    @update_deployment_history sample_datetime "main.bicep" true None w = (Ok tt, w')
    ∧ persisted_record w' "main.bicep" = Some e
    ∧ e !! "LastDeploymentError" = None.
Proof.
  intros w.
  destruct (proj1 (@C5_record_deployment_error_message sample_datetime w "main.bicep"
                     true None I))
    as (w' & e & Hrun & _ & Hrec & _ & Herr).
  exists w', e. repeat split; assumption.
Defined.

(** C5, as stated, fails: recording a success together with an error message
    keeps that message as the record's last deployment error instead of
    clearing it. *)
Lemma C5_counterexample :
  let w := sample_world (sample_settings [sample_failed_record])
             [sample_file "main.bicep" 500 "def"] in
  let run := @update_deployment_history sample_datetime "main.bicep" true (Some "boom") w in
  run.1 = Ok tt
  ∧ persisted_field run.2 "main.bicep" "LastDeploymentSuccess" = Some (VBool true)
  ∧ persisted_field run.2 "main.bicep" "LastDeploymentError" = Some (VStr "boom").
Proof. vm_compute. by repeat split. Qed.

(** ** Reordering *)

Lemma find_None_all {A} (p : A → bool) (l : list A) :
  (∀ x, x ∈ l → p x = false) → List.find p l = None.
Proof.
  induction l as [|x l IH]; intros Hall; [done|]. simpl.
  rewrite (Hall x) by apply list_elem_of_here.
  apply IH. intros y Hy. apply Hall. by apply list_elem_of_further.
Qed.

Lemma in_strs_false (s : string) (names : list string) :
  s ∉ names → in_strs (VStr s) names = false.
Proof.
  intros Hnot. unfold in_strs. apply not_true_is_false. intros Hex.
  apply existsb_exists in Hex as (n & Hin & Heq). simpl in Heq.
  apply String.eqb_eq in Heq as ->. by apply list_elem_of_In in Hin.
Qed.

Section Reorder.
Context `{Datetime}.

Lemma reorder_templates_run (w : World) (new_order : list string) :
  loadable w →
  ∃ w', reorder_templates new_order w = (Ok tt, w')
    ∧ loadable w'
    ∧ persisted_order w'
      = (map (λ filename,
                match List.find (λ entry, eq_str (get entry "FileName") filename)
                        (persisted_order w) with
                | Some existing_entry =>
                    if dict_truthy existing_entry then existing_entry
                    else new_entry filename
                | None => new_entry filename
                end) new_order
         ++ List.filter (λ entry, negb (in_strs (get entry "FileName") new_order))
              (persisted_order w))%list.
Proof.
  intros Hl. destruct (load_loadable w Hl) as [settings Hs].
  unfold reorder_templates, bind, lift, persisted_order. rewrite Hs. simpl.
  eexists. split; [reflexivity|]. by split.
Qed.

(** C9. [reorder_templates] looks entries up by the exact name in the new
    sequence: position [k] of the result holds the first persisted entry whose
    [FileName] equals the [k]-th name, or a fresh [{FileName, Enabled}] entry
    when there is none. So when the only record of [full_name] is stored under
    its stem, and the new sequence lists [full_name] but not the stem, the
    result has a fresh minimal entry for [full_name] at the requested position
    and the stem-named record, with all its fields, after the reordered
    entries. *)
Theorem C9_reorder_matches_exact_name (w : World) (new_order : list string) :
  loadable w →
  ∃ w', reorder_templates new_order w = (Ok tt, w')
    ∧ (∀ k filename, new_order !! k = Some filename →
         persisted_order w' !! k
           = Some (default (new_entry filename)
                     (List.find (λ entry, eq_str (get entry "FileName") filename)
                        (persisted_order w))))
    ∧ (∀ k full_name (stem_record : dict),
         stem_record ∈ persisted_order w →
         get stem_record "FileName" = VStr (stem full_name) →
         (∀ e, e ∈ persisted_order w → eq_str (get e "FileName") full_name = false) →
         stem full_name ∉ new_order →
         new_order !! k = Some full_name →
         persisted_order w' !! k = Some (new_entry full_name)
         ∧ ∃ k', (length new_order ≤ k')%nat ∧ persisted_order w' !! k' = Some stem_record).
Proof.
  intros Hl. destruct (reorder_templates_run w new_order Hl) as (w' & Hrun & _ & Hord).
  exists w'. split; [done|].
  assert (Hat : ∀ k filename, new_order !! k = Some filename →
    persisted_order w' !! k
      = Some (default (new_entry filename)
                (List.find (λ entry, eq_str (get entry "FileName") filename)
                   (persisted_order w)))).
  { intros k filename Hk. rewrite Hord.
    rewrite lookup_app_l by (rewrite length_map; by eapply lookup_lt_Some).
    rewrite list_lookup_fmap, Hk. simpl. f_equal.
    destruct (List.find _ _) as [e|] eqn:Hfind; [|done]. simpl.
    apply find_some in Hfind as [_ Heq].
    rewrite (get_not_None_truthy e "FileName"); [done|].
    intros Hnone. by rewrite Hnone in Heq. }
  split; [done|].
  intros k full_name stem_record Hin Hname Hnofull Hnostem Hk. split.
  - rewrite (Hat k full_name Hk). by rewrite (find_None_all _ _ Hnofull).
  - assert (Hkept : stem_record ∈
      List.filter (λ entry, negb (in_strs (get entry "FileName") new_order))
        (persisted_order w)).
    { apply list_elem_of_In, filter_In. split; [by apply list_elem_of_In|].
      by rewrite Hname, in_strs_false. }
    apply list_elem_of_lookup in Hkept as [j Hj].
    exists (length new_order + j)%nat. split; [lia|].
    rewrite Hord, lookup_app_r by (rewrite length_map; lia).
    rewrite length_map. by replace (length new_order + j - length new_order)%nat with j by lia.
Qed.

End Reorder.

Lemma C9_witness :
  let w := sample_world (sample_settings [sample_stem_record])
             [sample_file "main.bicep" 500 "abc"] in
  ∃ w', @reorder_templates sample_datetime ["main.bicep"] w = (Ok tt, w')
    ∧ persisted_order w' !! 0%nat = Some (new_entry "main.bicep")
    ∧ ∃ k', (1 ≤ k')%nat ∧ persisted_order w' !! k' = Some sample_stem_record.
Proof.
  intros w.
  destruct (@C9_reorder_matches_exact_name sample_datetime w ["main.bicep"] I)
    as (w' & Hrun & _ & Hstem).
  exists w'. split; [exact Hrun|].
  apply (Hstem 0%nat "main.bicep" sample_stem_record).
  - apply list_elem_of_here.
  - reflexivity.
  - intros e He. apply list_elem_of_In in He. destruct He as [<-|[]]. reflexivity.
  - rewrite list_elem_of_In. intros [Heq|[]]. discriminate Heq.
  - reflexivity.
Defined.

(** ** Discovery *)

Lemma mapM_Ok {A B} (f : A → Result B) (l : list A) :
  (∀ x, x ∈ l → ∃ y, f x = Ok y) →
  ∃ ys, mapM f l = Ok ys ∧ Forall2 (λ x y, f x = Ok y) l ys.
Proof.
  induction l as [|x l IH]; intros Hall; simpl.
  - by exists [].
  - destruct (Hall x) as [y Hy]; [apply list_elem_of_here|].
    destruct IH as (ys & Hys & Hf).
    { intros z Hz. apply Hall. by apply list_elem_of_further. }
    exists (y :: ys). rewrite Hy, Hys. simpl. split; [done|]. by constructor.
Qed.

Lemma insert_sorted_perm key x l : insert_sorted key x l ≡ₚ x :: l.
Proof.
  induction l as [|y l IH]; simpl; [done|].
  destruct (key_le (key x) (key y)); [done|].
  rewrite IH. apply Permutation_swap.
Qed.

Lemma sorted_perm key l : sorted key l ≡ₚ l.
Proof.
  unfold sorted. induction l as [|x l IH]; simpl; [done|].
  by rewrite insert_sorted_perm, IH.
Qed.

Section Discovery.
Context `{Datetime}.

Lemma stat_on_disk (w : World) (file : DiskFile) :
  file ∈ w_disk w → ∃ st, stat w (df_name file) = Ok st.
Proof.
  intros Hin. unfold stat, find_file.
  destruct (List.find _ _) eqn:Hfind; [by eexists|].
  apply list_elem_of_In in Hin. pose proof (find_none _ _ Hfind _ Hin) as Hno.
  simpl in Hno. by rewrite String.eqb_refl in Hno.
Qed.

(** The detector raises only on a recorded deployment time that is not a string. *)
Lemma _determine_deployment_status_total (w : World) (f : Path) (fs : option dict) :
  (∀ e, fs = Some e → iso_or_empty (get e "LastDeployment")) →
  ∃ r, _determine_deployment_status w f fs = Ok r.
Proof.
  intros Hts. unfold _determine_deployment_status.
  destruct fs as [e|]; [|by eexists].
  destruct (negb (dict_truthy e)); [by eexists|].
  destruct (is_False _); [by eexists|].
  destruct (is_None _); [by eexists|].
  destruct (truthy_str _ && truthy _); [destruct (negb _); by eexists|].
  destruct (Hts e eq_refl) as [Hfalse|(s & t & Hs & _)].
  - rewrite Hfalse. by eexists.
  - rewrite Hs. destruct (truthy (VStr s)); [|by eexists].
    unfold py_strptime. destruct (strptime s); simpl; [|by eexists].
    unfold stat. destruct (find_file w f); simpl; [|by eexists].
    destruct (_ <? _)%Z; by eexists.
Qed.

Lemma time_if_total (fs : option dict) (k : string) :
  (∀ e, fs = Some e → iso_or_empty (get e k)) → ∃ t, time_if fs k = Ok t.
Proof.
  intros Hts. unfold time_if, get_if. destruct fs as [e|]; [|by eexists].
  destruct (dict_truthy e); [|by eexists].
  destruct (Hts e eq_refl) as [Hfalse|(s & t & Hs & Hiso)].
  - rewrite Hfalse. by eexists.
  - rewrite Hs. destruct (truthy (VStr s)); [|by eexists].
    simpl. rewrite Hiso. by eexists.
Qed.

Lemma make_template_total (w : World) (settings : DeploymentSettings) (file : DiskFile) :
  file ∈ w_disk w →
  (∀ e, e ∈ file_order settings →
     iso_or_empty (get e "LastDeployment") ∧ iso_or_empty (get e "LastValidation")) →
  ∃ t, make_template w settings file = Ok t ∧ BicepTemplate.name t = df_name file.
Proof.
  intros Hin Hts. unfold make_template.
  set (fs := match find_entry _ _ with Some i => file_order settings !! i | None => None end).
  assert (Hfs : ∀ e, fs = Some e →
    iso_or_empty (get e "LastDeployment") ∧ iso_or_empty (get e "LastValidation")).
  { intros e He. apply Hts. subst fs.
    destruct (find_entry _ _); [|done]. by eapply list_elem_of_lookup_2. }
  destruct (stat_on_disk w file Hin) as [st ->]. simpl.
  destruct (_determine_deployment_status_total w (df_name file) fs) as [[needs h] ->].
  { intros e He. by apply Hfs. }
  simpl.
  destruct (time_if_total fs "LastDeployment") as [t1 ->]; [intros e He; by apply Hfs|].
  destruct (time_if_total fs "LastValidation") as [t2 ->]; [intros e He; by apply Hfs|].
  simpl. by eexists.
Qed.

Lemma make_template_name (w : World) (settings : DeploymentSettings) (file : DiskFile)
    (t : BicepTemplate.t) :
  make_template w settings file = Ok t → BicepTemplate.name t = df_name file.
Proof.
  unfold make_template.
  destruct (stat w (df_name file)); simpl; [|done].
  destruct (_determine_deployment_status _ _ _) as [[needs h]|]; simpl; [|done].
  destruct (time_if _ "LastDeployment"); simpl; [|done].
  destruct (time_if _ "LastValidation"); simpl; [|done].
  by intros [= <-].
Qed.

(** Discovery returns one template per file on disk. *)
Lemma get_bicep_files_total (w : World) :
  loadable w → well_timed w →
  ∃ templates, get_bicep_files w = Ok templates
    ∧ map BicepTemplate.name templates ≡ₚ map df_name (w_disk w).
Proof.
  intros Hl Hts. destruct (load_loadable w Hl) as [settings Hs].
  unfold well_timed, persisted_order in Hts. rewrite Hs in Hts.
  unfold get_bicep_files. rewrite Hs. simpl.
  destruct (mapM_Ok (make_template w settings) (w_disk w)) as (ts & -> & Hf).
  { intros file Hin. destruct (make_template_total w settings file Hin Hts) as (t & Ht & _).
    by exists t. }
  simpl. eexists. split; [reflexivity|].
  rewrite sorted_perm.
  assert (Hnames : map BicepTemplate.name ts = map df_name (w_disk w)); [|by rewrite Hnames].
  induction Hf as [|file t disk ts Hft Hf IH]; [done|].
  simpl. f_equal; [by eapply make_template_name|done].
Qed.

End Discovery.

(** ** Refreshing the file list *)

Section Refresh.
Context `{Datetime}.

(** C6 (amended). When the settings file loads and its timestamps are
    readable, [refresh_file_list] returns the number of template files on
    disk, the count of discovered templates, not of new ones. The persisted
    order keeps every existing entry in place and gains, after them, a bare
    [{FileName, Enabled}] entry for each discovered template whose exact name
    no entry carries. *)
Theorem C6_refresh_file_list (w : World) :
  loadable w → well_timed w →
  ∃ templates w',
    get_bicep_files w = Ok templates
    ∧ map BicepTemplate.name templates ≡ₚ map df_name (w_disk w)
    ∧ refresh_file_list w = (Ok (length (w_disk w)), w')
    ∧ persisted_order w'
      = (persisted_order w
         ++ map (λ t, new_entry (BicepTemplate.name t))
              (List.filter (λ t, unlisted (persisted_order w) (BicepTemplate.name t))
                 templates))%list
    ∧ (∀ file, file ∈ w_disk w →
         unlisted (persisted_order w) (df_name file) = true →
         new_entry (df_name file) ∈ persisted_order w')
    ∧ (∀ i e, persisted_order w !! i = Some e → persisted_order w' !! i = Some e).
Proof.
  intros Hl Hts.
  destruct (get_bicep_files_total w Hl Hts) as (templates & Hget & Hperm).
  destruct (load_loadable w Hl) as [settings Hs].
  assert (Hlen : length templates = length (w_disk w)).
  { rewrite <- (length_map BicepTemplate.name), <- (length_map df_name).
    by apply Permutation_length. }
  set (new_files := map (λ t, new_entry (BicepTemplate.name t))
         (List.filter (λ t, unlisted (file_order settings) (BicepTemplate.name t)) templates)).
  assert (Hrun : ∃ w', refresh_file_list w = (Ok (length (w_disk w)), w')
                  ∧ persisted_order w' = (persisted_order w ++ new_files)%list).
  { unfold refresh_file_list, bind, lift. rewrite Hget, Hs, <- Hlen.
    unfold persisted_order at 2. rewrite Hs.
    subst new_files. unfold unlisted.
    destruct (map _ (List.filter _ templates)) as [|e rest] eqn:Hnew.
    - exists w. split; [done|]. unfold persisted_order. by rewrite Hs, app_nil_r.
    - eexists. split; [reflexivity|]. done. }
  destruct Hrun as (w' & Hrun & Hord).
  assert (Hpo : persisted_order w = file_order settings).
  { unfold persisted_order. by rewrite Hs. }
  exists templates, w'. rewrite Hpo. repeat split; try done.
  - by rewrite Hord, Hpo.
  - intros file Hin Hunl. rewrite Hord. apply elem_of_app. right.
    assert (Hname : df_name file ∈ map BicepTemplate.name templates).
    { rewrite Hperm. by apply list_elem_of_fmap_2. }
    apply list_elem_of_fmap in Hname as (t & Hn & Ht).
    subst new_files. apply list_elem_of_fmap. exists t. split; [by rewrite Hn|].
    apply list_elem_of_In, filter_In. split; [by apply list_elem_of_In|]. by rewrite <- Hn.
  - intros i e Hi. rewrite Hord, Hpo. rewrite lookup_app_l; [done|].
    by eapply lookup_lt_Some.
Qed.

End Refresh.

Lemma C6_witness :
  let w := sample_world (sample_settings [sample_stem_record])
             [sample_file "main.bicep" 500 "abc"; sample_file "net.bicep" 600 "xyz"] in
  ∃ w', @refresh_file_list sample_datetime w = (Ok 2%nat, w')
    ∧ new_entry "net.bicep" ∈ persisted_order w'
    ∧ persisted_order w' !! 0%nat = Some sample_stem_record.
Proof.
  intros w.
  destruct (@C6_refresh_file_list sample_datetime w I)
    as (ts & w' & _ & _ & Hrun & _ & Hnew & Hold).
  - intros e He. apply list_elem_of_In in He. destruct He as [<-|[]]. split.
    + right. exists "2025-09-05 09:29:07", 100%Z. split; reflexivity.
    + left. reflexivity.
  - exists w'. split; [exact Hrun|]. split.
    + apply (Hnew (sample_file "net.bicep" 600 "xyz")).
      * apply list_elem_of_further, list_elem_of_here.
      * reflexivity.
    + apply Hold. reflexivity.
Defined.

(** C6, as stated, fails: with one template on disk that the persisted order
    already lists, nothing is newly discovered and the order stays as it is,
    yet [refresh_file_list] returns 1, not 0. *)
Lemma C6_counterexample :
  let w := sample_world (sample_settings [sample_bare_record])
             [sample_file "main.bicep" 500 "abc"] in
  let run := @refresh_file_list sample_datetime w in
  run.1 = Ok 1%nat ∧ run.2 = w ∧ persisted_order run.2 = [sample_bare_record].
Proof. vm_compute. by repeat split. Qed.

(** ** Hoare rules *)

Lemma hoare_ret {A} (P : World → Prop) (a : A) Q E :
  (∀ w, P w → Q a w) → hoare P (ret a) Q E.
Proof. intros HQ w HP. by apply HQ. Qed.

Lemma hoare_lift {A} (P : World → Prop) (f : World → Result A) Q E :
  (∀ w, P w → match f w with Ok a => Q a w | Raise e => E e w end) →
  hoare P (lift f) Q E.
Proof. intros Hf w HP. unfold lift. specialize (Hf w HP). by destruct (f w). Qed.

Lemma hoare_bind {A B} (P : World → Prop) (m : M A) (k : A → M B) R Q E :
  hoare P m R E → (∀ a, hoare (R a) (k a) Q E) → hoare P (bind m k) Q E.
Proof.
  intros Hm Hk w HP. unfold bind. specialize (Hm w HP).
  destruct (m w) as [[a|e] w']; [by apply Hk|done].
Qed.

Lemma hoare_try_except {A} (P : World → Prop) (m : M A) (h : exn → M A) Q E E' :
  hoare P m Q E' → (∀ e, hoare (E' e) (h e) Q E) → hoare P (try_except m h) Q E.
Proof.
  intros Hm Hh w HP. unfold try_except. specialize (Hm w HP).
  destruct (m w) as [[a|e] w']; [done|by apply Hh].
Qed.

Lemma hoare_consequence {A} (P P' : World → Prop) (m : M A) (Q Q' : A → World → Prop)
    (E E' : exn → World → Prop) :
  hoare P' m Q' E' → (∀ w, P w → P' w) → (∀ a w, Q' a w → Q a w) →
  (∀ e w, E' e w → E e w) → hoare P m Q E.
Proof.
  intros Hm HP HQ HE w Hw. specialize (Hm w (HP w Hw)).
  destruct (m w) as [[a|e] w']; auto.
Qed.

(** ** What a call leaves alone *)

Lemma same_store_refl (w : World) : same_store w w.
Proof. by repeat split. Qed.

Lemma same_store_trans (w1 w2 w3 : World) :
  same_store w1 w2 → same_store w2 w3 → same_store w1 w3.
Proof.
  unfold same_store. intros (?&?&?&?&?&?) (?&?&?&?&?&?). repeat split; congruence.
Qed.

Lemma same_store_loadable (w w' : World) : same_store w w' → loadable w → loadable w'.
Proof. unfold loadable. intros (-> & _). done. Qed.

Lemma same_store_load (w w' : World) :
  same_store w w' → load_deployment_settings w' = load_deployment_settings w.
Proof. unfold load_deployment_settings. by intros (-> & _). Qed.

Lemma same_store_persisted_order (w w' : World) :
  same_store w w' → persisted_order w' = persisted_order w.
Proof. intros Hs. unfold persisted_order. by rewrite (same_store_load w w'). Qed.

Lemma same_store_persisted_field (w w' : World) f k :
  same_store w w' → persisted_field w' f k = persisted_field w f k.
Proof.
  intros Hs. unfold persisted_field, persisted_record. by rewrite (same_store_load w w').
Qed.

Lemma confirm_deploy_unchanged_loop_same_store (lines : list string) (w : World) :
  same_store w (confirm_deploy_unchanged_loop lines w).2.
Proof.
  revert w. induction lines as [|line rest IH]; intros w; simpl; [by repeat split|].
  repeat case_match; simpl; try by repeat split.
  eapply same_store_trans; [|apply IH]. by repeat split.
Qed.

Section Deploying.
Context `{Datetime}.

Lemma check_unchanged_same_store (f : Path) (template_name skip_unchanged : string)
    (w : World) :
  same_store w (check_unchanged f template_name skip_unchanged w).2.
Proof.
  unfold check_unchanged, bind, lift.
  destruct (test_template_modified w f) as [changed|e]; [|apply same_store_refl].
  destruct changed; simpl; [apply same_store_refl|].
  destruct (skip_unchanged =? "prompt")%string.
  - unfold confirm_deploy_unchanged.
    destruct (negb _).
    + simpl. destruct (_ =? "skip")%string; apply same_store_refl.
    + pose proof (confirm_deploy_unchanged_loop_same_store (w_input w) w) as Hs.
      destruct (confirm_deploy_unchanged_loop (w_input w) w) as [[action|e] w1]; [|done].
      simpl in *. by destruct (action =? "skip")%string.
  - simpl. destruct (_ =? "skip")%string; apply same_store_refl.
Qed.

(** Recording a failure with a non-empty message succeeds on a loadable
    settings file and leaves the failure on record. *)
Lemma record_failure (f : Path) (error_msg : string) :
  error_msg ≠ "" →
  hoare loadable (update_deployment_history f false (Some error_msg))
    (λ _ w', loadable w' ∧ failure_recorded w' f) (λ _ _, False).
Proof.
  intros Hne w Hl.
  destruct (update_deployment_history_record w f false (Some error_msg) Hl)
    as (w' & e & -> & Hl' & _ & _ & Hrec).
  split; [done|]. unfold failure_recorded, persisted_field. rewrite Hrec.
  split; [apply deployment_update_success|].
  exists error_msg. split; [done|]. rewrite deployment_update_error. simpl.
  by destruct (String.eqb_spec error_msg "").
Qed.

Lemma record_success (f : Path) :
  hoare loadable (update_deployment_history f true None) (λ _ w', loadable w') (λ _ _, False).
Proof.
  intros w Hl.
  by destruct (update_deployment_history_record w f true None Hl) as (w' & e & -> & Hl' & _).
Qed.

Lemma hoare_log {A} (P : World → Prop) (message : string) (k : unit → M A) Q E :
  hoare P (k tt) Q E → hoare P (bind (log message) k) Q E.
Proof. intros Hk w HP. unfold bind, log, ret. by apply Hk. Qed.

Lemma hoare_record_failure {A} (f : Path) (error_msg : string) (k : unit → M A) Q E :
  error_msg ≠ "" →
  hoare (λ w, loadable w ∧ failure_recorded w f) (k tt) Q E →
  hoare loadable (bind (update_deployment_history f false (Some error_msg)) k) Q E.
Proof.
  intros Hne Hk.
  apply hoare_bind with (R := λ _ w, loadable w ∧ failure_recorded w f);
    [|intros []; exact Hk].
  eapply hoare_consequence; [by apply (record_failure f error_msg)|done..].
Qed.

Lemma hoare_record_success {A} (f : Path) (k : unit → M A) Q E :
  hoare loadable (k tt) Q E →
  hoare loadable (bind (update_deployment_history f true None) k) Q E.
Proof.
  intros Hk. apply hoare_bind with (R := λ _ w, loadable w); [|intros []; exact Hk].
  eapply hoare_consequence; [by apply (record_success f)|done..].
Qed.

Lemma deploy_step_spec (f : Path) (mode template_name resource_group : string)
    (parameters_file : option Path) :
  hoare loadable (deploy_step f mode template_name resource_group parameters_file)
    (λ r w', loadable w' ∧ (r = RFalse → failure_recorded w' f))
    (λ _ w', loadable w').
Proof.
  unfold deploy_step, show_progress_spinner.
  eapply hoare_bind with (R := λ _ w', loadable w').
  - intros w Hl. unfold call_tool. by destruct (w_deploy _ _ _ _ _).
  - intros [success deploy_message]. destruct success.
    + apply hoare_log, hoare_record_success, hoare_ret. by intros w Hl.
    + apply hoare_log, hoare_record_failure; [done|].
      apply hoare_ret. by intros w [Hl Hrec].
Qed.

Lemma validate_and_deploy_spec (f : Path) (mode template_name resource_group : string)
    (parameters_file : option Path) (skip_validation : bool) (validation_mode : string)
    (needs : bool) :
  hoare loadable
    (validate_and_deploy f mode template_name resource_group parameters_file
       skip_validation validation_mode needs)
    (λ r w', loadable w' ∧ (r = RFalse → failure_recorded w' f))
    (λ _ w', loadable w').
Proof.
  unfold validate_and_deploy, show_progress_spinner.
  destruct (should_validate _ _ _); [|apply deploy_step_spec].
  eapply hoare_bind with (R := λ _ w', loadable w').
  - intros w Hl. unfold call_tool. by destruct (w_validate _ _ _ _).
  - intros [is_valid validation_message]. destruct is_valid; simpl.
    + apply deploy_step_spec.
    + apply hoare_log, hoare_record_failure; [done|].
      apply hoare_ret. by intros w [Hl Hrec].
Qed.

(** On a loadable settings file [deploy_bicep_template] never raises: it
    returns [True], [False] or "skipped", and when it returns [False] the
    file's record says so, with a non-empty error message. *)
Lemma deploy_bicep_template_spec (f : Path) (mode template_name resource_group : string)
    (parameters_file : option Path) (skip_unchanged : string) (skip_validation : bool)
    (validation_mode : string) (needs : bool) :
  hoare loadable
    (deploy_bicep_template f mode template_name resource_group parameters_file
       skip_unchanged skip_validation validation_mode needs)
    (λ r w', loadable w' ∧ (r = RFalse → failure_recorded w' f))
    (λ _ _, False).
Proof.
  unfold deploy_bicep_template.
  eapply hoare_try_except with (E' := λ _ w', loadable w').
  - unfold deploy_bicep_template_try.
    eapply hoare_bind with (R := λ _ w', loadable w').
    + apply hoare_lift. intros w Hl. by destruct (stat w f).
    + intros st. destruct (df_size st =? 0)%Z.
      * apply hoare_log, hoare_record_failure; [done|].
        apply hoare_ret. by intros w [Hl Hrec].
      * eapply hoare_bind with (R := λ _ w', loadable w').
        -- intros w Hl.
           pose proof (check_unchanged_same_store f template_name skip_unchanged w) as Hs.
           destruct (check_unchanged _ _ _ w) as [[skipped|e] w1];
             by apply (same_store_loadable w).
        -- intros skipped. destruct skipped; [|apply validate_and_deploy_spec].
           apply hoare_ret. by intros w Hl.
  - intros e. apply hoare_log, hoare_record_failure; [done|].
    apply hoare_ret. by intros w [Hl Hrec].
Qed.

End Deploying.

(** ** The frame of a recorded deployment *)

Lemma not_deployment_key (k : string) :
  k ∉ deployment_keys →
  k ≠ "LastDeploymentSuccess" ∧ k ≠ "LastDeployment" ∧ k ≠ "LastFileHash"
  ∧ k ≠ "LastDeploymentError".
Proof.
  intros Hk. rewrite list_elem_of_In in Hk. simpl in Hk.
  repeat split; intros ->; apply Hk; auto 10.
Qed.

Lemma new_entry_other_key (f : Path) (k : string) :
  k ≠ "FileName" → k ≠ "Enabled" → new_entry f !! k = None.
Proof. intros H1 H2. unfold new_entry. by simplify_map_eq. Qed.

Lemma load_Ok_loadable (w : World) settings :
  load_deployment_settings w = Ok settings → loadable w.
Proof.
  unfold load_deployment_settings, loadable. by destruct (w_settings_file w).
Qed.

Section RecordFrame.
Context `{Datetime}.

(** Everything [update_deployment_history] does to the settings file. *)
Lemma update_deployment_history_effect (w : World) (f : Path) (success : bool)
    (msg : option string) :
  loadable w →
  ∃ w',
    update_deployment_history f success msg w = (Ok tt, w')
    ∧ loadable w'
    ∧ persisted_field w' f "LastDeploymentSuccess" = Some (VBool success)
    ∧ persisted_field w' f "LastDeploymentError"
      = (if truthy_str msg then Some (of_opt_str msg) else None)
    ∧ (∀ k, k ∉ deployment_keys → k ≠ "FileName" → k ≠ "Enabled" →
         persisted_field w' f k = persisted_field w f k)
    ∧ (∀ i e, persisted_order w !! i = Some e →
         ∃ e', persisted_order w' !! i = Some e'
           ∧ ∀ k, k ∉ deployment_keys → e' !! k = e !! k).
Proof.
  intros Hl.
  destruct (update_deployment_history_record w f success msg Hl)
    as (w' & e0 & Hrun & Hl' & _ & He0 & Hrec).
  destruct (update_deployment_history_run w f success msg Hl)
    as (w'' & Hrun' & _ & _ & Hord).
  assert (w'' = w') as -> by congruence.
  exists w'. split; [done|]. split; [done|].
  unfold persisted_field. rewrite Hrec.
  split; [apply deployment_update_success|].
  split; [apply deployment_update_error|].
  destruct (find_or_create_found f (persisted_order w)) as (e1 & He1 & _ & _ & Hcase).
  assert (e1 = e0) as -> by congruence.
  split.
  - intros k Hk Hfn Hen. apply not_deployment_key in Hk as (K1 & K2 & K3 & K4).
    rewrite deployment_update_frame by done.
    unfold persisted_record. destruct (load_loadable w Hl) as [settings Hs].
    unfold persisted_order in Hcase, He0. rewrite Hs in *.
    destruct (find_entry _ _) as [i|].
    + rewrite Hcase in He0. simpl in He0. by rewrite He0.
    + destruct Hcase as [_ ->]. by apply new_entry_other_key.
  - intros i e Hi. rewrite Hord.
    assert (Hi' : (find_or_create f (persisted_order w)).1 !! i = Some e).
    { destruct (find_entry _ _) as [j|].
      - by rewrite Hcase.
      - destruct Hcase as [-> _]. simpl. rewrite lookup_app_l; [done|].
        by eapply lookup_lt_Some. }
    destruct (decide (i = (find_or_create f (persisted_order w)).2)) as [->|Hne].
    + rewrite list_lookup_alter_eq, Hi'. simpl. eexists. split; [done|].
      intros k Hk. apply not_deployment_key in Hk as (K1 & K2 & K3 & K4).
      by apply deployment_update_frame.
    + rewrite list_lookup_alter_ne by done. by exists e.
Qed.

(** C10. When [deploy_bicep_template] gets as far as validating (the file is
    not empty and the unchanged check lets it through) and the Azure CLI
    rejects the template, it returns [False]; the file's record then has
    [LastDeploymentSuccess = False] and the validation message as
    [LastDeploymentError], its validation fields are what they were, and every
    entry of the persisted order keeps every field other than the four
    deployment fields. *)
Theorem C10_validation_failure_writes_deployment_fields (w w1 : World) (f : Path)
    (mode template_name resource_group : string) (parameters_file : option Path)
    (skip_unchanged : string) (skip_validation : bool) (validation_mode : string)
    (needs : bool) (st : DiskFile) (validation_message : string) :
  stat w f = Ok st → df_size st ≠ 0%Z →
  check_unchanged f template_name skip_unchanged w = (Ok false, w1) →
  should_validate skip_validation validation_mode needs = true →
  w_validate w resource_group f parameters_file = Returned false validation_message →
  ∃ w2,
    deploy_bicep_template f mode template_name resource_group parameters_file
      skip_unchanged skip_validation validation_mode needs w = (Ok RFalse, w2)
    ∧ persisted_field w2 f "LastDeploymentSuccess" = Some (VBool false)
    ∧ persisted_field w2 f "LastDeploymentError"
      = Some (VStr ("Template validation failed: " ++ validation_message))
    ∧ (∀ k, k ∈ validation_keys → persisted_field w2 f k = persisted_field w f k)
    ∧ (∀ i e, persisted_order w !! i = Some e →
         ∃ e', persisted_order w2 !! i = Some e'
           ∧ ∀ k, k ∉ deployment_keys → e' !! k = e !! k).
Proof.
  intros Hstat Hsize Hcheck Hsv Hval.
  pose proof (check_unchanged_same_store f template_name skip_unchanged w) as Hsame.
  rewrite Hcheck in Hsame. simpl in Hsame.
  assert (Hl : loadable w).
  { unfold check_unchanged, bind, lift, test_template_modified in Hcheck.
    destruct (load_deployment_settings w) eqn:Hload; [by eapply load_Ok_loadable|done]. }
  assert (Hl1 : loadable w1) by by apply (same_store_loadable w).
  destruct (update_deployment_history_effect w1 f false
    (Some ("Template validation failed: " ++ validation_message)) Hl1)
    as (w2 & Hrun & _ & Hsucc & Herr & Hframe1 & Hframe2).
  exists w2. split.
  - unfold deploy_bicep_template, try_except, deploy_bicep_template_try, bind, lift.
    rewrite Hstat. apply Z.eqb_neq in Hsize. rewrite Hsize, Hcheck.
    unfold validate_and_deploy, show_progress_spinner, call_tool, bind, log, ret.
    rewrite Hsv. destruct Hsame as (_ & _ & _ & -> & _). rewrite Hval. simpl.
    by rewrite Hrun.
  - split; [done|]. split; [done|]. split.
    + intros k Hk. rewrite <- (same_store_persisted_field w w1) by done.
      apply Hframe1; unfold validation_keys, deployment_keys in *;
        rewrite list_elem_of_In in *; simpl in *; intuition (subst; discriminate).
    + intros i e Hi. apply Hframe2. by rewrite (same_store_persisted_order w w1).
Qed.

End RecordFrame.

Lemma C10_witness :
  let w := sample_world_rejecting (sample_settings [sample_validated_record])
             [sample_file "main.bicep" 500 "def"] in
  ∃ w2,
    @deploy_bicep_template sample_datetime "main.bicep" "Incremental" "main.bicep"
      "rg" None "prompt" false "All" true w = (Ok RFalse, w2)
    ∧ persisted_field w2 "main.bicep" "LastDeploymentError"
      = Some (VStr "Template validation failed: InvalidTemplate")
    ∧ persisted_field w2 "main.bicep" "LastValidationSuccess" = Some (VBool true).
Proof.
  intros w.
  destruct (@C10_validation_failure_writes_deployment_fields sample_datetime w w
              "main.bicep" "Incremental" "main.bicep" "rg" None "prompt" false "All" true
              (sample_file "main.bicep" 500 "def") "InvalidTemplate")
    as (w2 & Hrun & _ & Herr & Hval & _).
  - reflexivity.
  - discriminate.
  - vm_compute. reflexivity.
  - reflexivity.
  - reflexivity.
  - exists w2. split; [exact Hrun|]. split; [exact Herr|].
    rewrite (Hval "LastValidationSuccess").
    + reflexivity.
    + apply list_elem_of_here.
Defined.

(** ** A deployment that cannot be recorded *)

(** C8. With a settings file that holds the JSON document [[]], the check for
    changes raises [AttributeError] inside the [try] block; the handler calls
    [update_deployment_history], which loads the settings and raises again.
    [deploy_bicep_template] then returns none of its three outcomes and
    records nothing: the settings file is left as it was. (On every loadable
    settings file it returns and records, see [deploy_bicep_template_spec].) *)
Theorem C8_deploy_raises_when_settings_unloadable :
  let w := sample_world (FileNotObject (JArray [])) [sample_file "main.bicep" 500 "def"] in
  @deploy_bicep_template sample_datetime "main.bicep" "Incremental" "main.bicep"
    "rg" None "prompt" false "All" true w
  = (Raise (Exn AttributeError "object has no attribute 'get'"), w).
Proof. reflexivity. Qed.

(** ** The history of a batch *)

Lemma events_kept_ret {A} (a : A) : events_kept (ret a).
Proof. by intros w. Qed.

Lemma events_kept_lift {A} (f : World → Result A) : events_kept (lift f).
Proof. by intros w. Qed.

Lemma events_kept_bind {A B} (m : M A) (k : A → M B) :
  events_kept m → (∀ a, events_kept (k a)) → events_kept (bind m k).
Proof.
  intros Hm Hk w. unfold bind. specialize (Hm w).
  destruct (m w) as [[a|e] w1]; simpl in *; [|done]. by rewrite Hk.
Qed.

Lemma events_kept_try_except {A} (m : M A) (h : exn → M A) :
  events_kept m → (∀ e, events_kept (h e)) → events_kept (try_except m h).
Proof.
  intros Hm Hh w. unfold try_except. specialize (Hm w).
  destruct (m w) as [[a|e] w1]; simpl in *; [done|]. by rewrite Hh.
Qed.

Lemma events_kept_input : events_kept input.
Proof. intros w. unfold input. by destruct (w_input w). Qed.

Lemma events_kept_call_tool (r : World → ToolResult) : events_kept (call_tool r).
Proof. intros w. unfold call_tool. by destruct (r w). Qed.

Lemma events_kept_same_store {A} (m : M A) :
  (∀ w, same_store w (m w).2) → events_kept m.
Proof. intros Hs w. by destruct (Hs w) as (_ & _ & _ & _ & _ & ->). Qed.

Lemma get_deployment_mode_loop_events (lines : list string) (w : World) :
  w_events (get_deployment_mode_loop lines w).2 = w_events w.
Proof.
  assert (Hn : ∀ n lines w, (length lines ≤ n)%nat →
    w_events (get_deployment_mode_loop lines w).2 = w_events w).
  { clear. induction n as [|n IH]; intros lines w Hlen.
    - destruct lines; [done|simpl in Hlen; lia].
    - destruct lines as [|line rest]; simpl; [done|].
      simpl in Hlen. repeat case_match; simpl; try done; subst.
      + apply IH. simpl in Hlen. lia.
      + apply IH. lia. }
  by apply (Hn (length lines)).
Qed.

Section BatchHistory.
Context `{Datetime}.

Lemma events_kept_save (settings : DeploymentSettings) :
  events_kept (save_deployment_settings settings).
Proof. by intros w. Qed.

Lemma events_kept_update_deployment_history (f : Path) (success : bool) msg :
  events_kept (update_deployment_history f success msg).
Proof.
  unfold update_deployment_history.
  apply events_kept_bind; [apply events_kept_lift|]. intros settings.
  apply events_kept_bind; [apply events_kept_lift|]. intros file_hash.
  destruct (find_or_create _ _) as [order i].
  apply events_kept_bind; [apply events_kept_lift|]. intros now.
  apply events_kept_save.
Qed.

Lemma events_kept_update_validation_history (f : Path) (success : bool) msg :
  events_kept (update_validation_history f success msg).
Proof.
  unfold update_validation_history.
  apply events_kept_bind; [apply events_kept_lift|]. intros settings.
  destruct (find_or_create _ _) as [order i].
  apply events_kept_bind; [apply events_kept_lift|]. intros now.
  apply events_kept_save.
Qed.

Ltac events_kept_step :=
  first [ apply events_kept_update_deployment_history
        | apply events_kept_update_validation_history
        | apply events_kept_ret
        | apply events_kept_input
        | apply events_kept_call_tool
        | apply events_kept_lift
        | (apply events_kept_bind; [|intros ?]) ].

Lemma events_kept_deploy_step f mode template_name resource_group parameters_file :
  events_kept (deploy_step f mode template_name resource_group parameters_file).
Proof.
  unfold deploy_step, show_progress_spinner, log.
  apply events_kept_bind; [apply events_kept_call_tool|]. intros [success message].
  destruct success; repeat events_kept_step.
Qed.

Lemma events_kept_deploy_bicep_template f mode template_name resource_group
    parameters_file skip_unchanged skip_validation validation_mode needs :
  events_kept (deploy_bicep_template f mode template_name resource_group parameters_file
                 skip_unchanged skip_validation validation_mode needs).
Proof.
  unfold deploy_bicep_template, deploy_bicep_template_try, validate_and_deploy,
    show_progress_spinner, log.
  apply events_kept_try_except.
  - apply events_kept_bind; [apply events_kept_lift|]. intros st.
    destruct (df_size st =? 0)%Z; [repeat events_kept_step|].
    apply events_kept_bind.
    { apply events_kept_same_store. apply check_unchanged_same_store. }
    intros skipped. destruct skipped; [apply events_kept_ret|].
    destruct (should_validate _ _ _); [|apply events_kept_deploy_step].
    apply events_kept_bind; [apply events_kept_call_tool|]. intros [is_valid message].
    destruct is_valid; simpl; [apply events_kept_deploy_step|].
    repeat events_kept_step.
  - intros e. repeat events_kept_step.
Qed.

Lemma events_kept_validate_all_templates_loop resource_group parameters_file ts s f :
  events_kept (validate_all_templates_loop resource_group parameters_file ts s f).
Proof.
  revert s f. induction ts as [|t ts IH]; intros s f; simpl; [apply events_kept_ret|].
  unfold show_progress_spinner, log.
  apply events_kept_bind; [|intros [s' f']; apply IH].
  apply events_kept_try_except.
  - apply events_kept_bind; [apply events_kept_call_tool|]. intros [is_valid message].
    destruct is_valid; repeat events_kept_step.
  - intros e. repeat events_kept_step.
Qed.

Lemma events_kept_bulk_validation ts resource_group parameters_file :
  events_kept (bulk_validation ts resource_group parameters_file).
Proof.
  unfold bulk_validation, validate_all_templates, log.
  apply events_kept_bind.
  - destruct (List.filter _ ts).
    + repeat events_kept_step.
    + apply events_kept_validate_all_templates_loop.
  - intros [s f]. destruct (0 <? f)%nat; [|apply events_kept_ret].
    apply events_kept_bind; [apply events_kept_input|]. intros c.
    destruct (negb _); repeat events_kept_step.
Qed.

Lemma events_kept_validation_phase templates enabled resource_group parameters_file
    validation_mode :
  events_kept (validation_phase templates enabled resource_group parameters_file
                 validation_mode).
Proof.
  unfold validation_phase, log.
  destruct (validation_mode =? "All")%string; [apply events_kept_bulk_validation|].
  destruct (validation_mode =? "Changed")%string.
  - destruct (List.filter _ enabled); [|apply events_kept_bulk_validation].
    repeat events_kept_step.
  - repeat events_kept_step.
Qed.

End BatchHistory.

(** ** Shape of a batch history *)

Lemma counts_sum (tr : list BatchEvent) :
  (count_successful tr + count_failed tr)%nat = length (attempted tr).
Proof.
  induction tr as [|ev tr IH]; [done|].
  destruct ev as [i name [| |]| |]; simpl; lia.
Qed.

Lemma batch_trace_lower (i : nat) ts tr :
  batch_trace i ts tr → Forall (λ j, (i ≤ j)%nat) (attempted tr).
Proof.
  induction 1 as [| i t ts r tr _ IH | | i t ts tr _ IH]; simpl.
  - constructor.
  - constructor; [lia|]. eapply Forall_impl; [exact IH|]. simpl. lia.
  - by repeat constructor.
  - eapply Forall_impl; [exact IH|]. simpl. lia.
Qed.

(** Positions are attempted in increasing order, so none twice. *)
Lemma batch_trace_sorted (i : nat) ts tr :
  batch_trace i ts tr → StronglySorted lt (attempted tr).
Proof.
  induction 1 as [| i t ts r tr Htr IH | | i t ts tr _ IH]; simpl.
  - constructor.
  - constructor; [done|].
    eapply Forall_impl; [exact (batch_trace_lower _ _ _ Htr)|]. simpl. lia.
  - repeat constructor.
  - done.
Qed.

(** An attempted position is that of a template of the batch, under its name. *)
Lemma batch_trace_names (i : nat) ts tr j name result :
  batch_trace i ts tr → EvAttempt j name result ∈ tr →
  ∃ t, (i ≤ j)%nat ∧ ts !! (j - i)%nat = Some t ∧ BicepTemplate.name t = name.
Proof.
  induction 1 as [| i t ts r tr _ IH | i t ts | i t ts tr _ IH]; intros Hin.
  - by apply elem_of_nil in Hin.
  - apply elem_of_cons in Hin as [[= -> -> ->]|Hin].
    + exists t. rewrite Nat.sub_diag. by repeat split.
    + destruct (IH Hin) as (t' & Hle & Hl & Hn). exists t'. split; [lia|].
      split; [|done]. by replace (j - i)%nat with (S (j - S i)) by lia.
  - apply elem_of_cons in Hin as [[= -> -> ->]|Hin].
    + exists t. rewrite Nat.sub_diag. by repeat split.
    + apply list_elem_of_singleton in Hin. discriminate.
  - apply elem_of_cons in Hin as [[=]|Hin].
    destruct (IH Hin) as (t' & Hle & Hl & Hn). exists t'. split; [lia|].
    split; [|done]. by replace (j - i)%nat with (S (j - S i)) by lia.
Qed.

(** A halt ends the history, right after the failed attempt it answers. *)
Lemma batch_trace_halt (i : nat) ts tr k :
  batch_trace i ts tr → EvHalt k ∈ tr →
  ∃ pre name, tr = (pre ++ [EvAttempt k name RFalse; EvHalt k])%list.
Proof.
  induction 1 as [| i t ts r tr _ IH | i t ts | i t ts tr _ IH]; intros Hin.
  - by apply elem_of_nil in Hin.
  - apply elem_of_cons in Hin as [[=]|Hin].
    destruct (IH Hin) as (pre & name & ->). by exists (EvAttempt i (BicepTemplate.name t) r :: pre), name.
  - apply elem_of_cons in Hin as [[=]|Hin].
    apply list_elem_of_singleton in Hin as [= ->]. by exists [], (BicepTemplate.name t).
  - apply elem_of_cons in Hin as [[=]|Hin].
    destruct (IH Hin) as (pre & name & ->).
    by exists (EvDeclinedItem i (BicepTemplate.name t) :: pre), name.
Qed.

Lemma attempted_app (tr1 tr2 : list BatchEvent) :
  attempted (tr1 ++ tr2) = (attempted tr1 ++ attempted tr2)%list.
Proof.
  induction tr1 as [|ev tr1 IH]; [done|]. destruct ev; simpl; by rewrite ?IH.
Qed.

Lemma batch_trace_nothing_after_halt (i : nat) ts tr k :
  batch_trace i ts tr → EvHalt k ∈ tr → ∀ j, j ∈ attempted tr → (j ≤ k)%nat.
Proof.
  intros Htr Hin j Hj.
  destruct (batch_trace_halt _ _ _ _ Htr Hin) as (pre & name & ->).
  pose proof (batch_trace_sorted _ _ _ Htr) as Hsorted.
  rewrite attempted_app in Hsorted, Hj. simpl in *.
  apply elem_of_app in Hj as [Hj|Hj].
  - apply Nat.lt_le_incl.
    apply (StronglySorted_app_1_elem_of lt (attempted pre) [k] j k Hsorted Hj).
    apply list_elem_of_here.
  - apply list_elem_of_singleton in Hj. lia.
Qed.

(** ** The batch loop *)

Section Batch.
Context `{Datetime}.

(** A failed deployment that the operator answers with "N" ends the loop on
    the spot: whatever the rest of the loop [next] is, it is not run. *)
Lemma attempt_item_halts (mode resource_group : string) (parameters_file : option Path)
    (skip_individual_validation : bool) (validation_mode : string) (i : nat)
    (t : BicepTemplate.t) (next : nat → nat → M (nat * nat)) (s f : nat)
    (w w1 : World) (line : string) (lines : list string) :
  deploy_bicep_template (BicepTemplate.file t)
    (if (i =? 1)%nat then mode else "Incremental") (BicepTemplate.name t)
    resource_group parameters_file
    (if (w_skip_unchanged_global w =? "prompt")%string then "prompt"
     else w_skip_unchanged_global w)
    skip_individual_validation validation_mode (BicepTemplate.needs_redeployment t) w
    = (Ok RFalse, w1) →
  w_input w1 = line :: lines →
  upper line = "N" →
  attempt_item mode resource_group parameters_file skip_individual_validation
    validation_mode i t next s f w
  = (Ok (s, S f),
     add_event (EvHalt i)
       (set_input lines (add_event (EvAttempt i (BicepTemplate.name t) RFalse) w1))).
Proof.
  intros Hdeploy Hinput Hline.
  unfold attempt_item, bind, lift, modify, input, log, ret. rewrite Hdeploy.
  simpl. rewrite Hinput, Hline. reflexivity.
Qed.

Lemma attempt_item_post (mode resource_group : string) (parameters_file : option Path)
    (skip_individual_validation : bool) (validation_mode : string) (i : nat)
    (t : BicepTemplate.t) (rest : list BicepTemplate.t)
    (next : nat → nat → M (nat * nat)) :
  (∀ s f w, loop_post (S i) rest s f w (next s f w).1 (next s f w).2) →
  ∀ s f w,
    loop_post i (t :: rest) s f w
      (attempt_item mode resource_group parameters_file skip_individual_validation
         validation_mode i t next s f w).1
      (attempt_item mode resource_group parameters_file skip_individual_validation
         validation_mode i t next s f w).2.
Proof.
  intros Hnext s f w. unfold attempt_item, bind, lift, modify.
  match goal with |- context [deploy_bicep_template ?a ?b ?c ?d ?e ?g ?h ?k ?l w] =>
    pose proof (events_kept_deploy_bicep_template a b c d e g h k l w) as Hev;
    destruct (deploy_bicep_template a b c d e g h k l w) as [[result|e0] w1]
  end; simpl in Hev.
  2: { exists []. simpl. rewrite app_nil_r. repeat split; [done|constructor|done..]. }
  set (w2 := add_event (EvAttempt i (BicepTemplate.name t) result) w1).
  assert (Hev2 : w_events w2
                 = (w_events w ++ [EvAttempt i (BicepTemplate.name t) result])%list).
  { simpl. by rewrite Hev. }
  assert (Hgo : ∀ w3 s0 f0, w_events w3 = w_events w2 →
    s0 = (s + count_successful [EvAttempt i (BicepTemplate.name t) result])%nat →
    f0 = (f + count_failed [EvAttempt i (BicepTemplate.name t) result])%nat →
    loop_post i (t :: rest) s f w (next s0 f0 w3).1 (next s0 f0 w3).2).
  { intros w3 s0 f0 Hw3 -> ->.
    destruct (Hnext (s + count_successful [EvAttempt i (BicepTemplate.name t) result])%nat
                (f + count_failed [EvAttempt i (BicepTemplate.name t) result])%nat w3)
      as (tr & Htr & Hshape & Hcount).
    exists (EvAttempt i (BicepTemplate.name t) result :: tr). split.
    - rewrite Htr, Hw3, Hev2, <- app_assoc. done.
    - split; [by constructor|].
      intros s' f' Hr. destruct (Hcount s' f' Hr) as [-> ->].
      destruct result; simpl; lia. }
  destruct result; simpl.
  - apply Hgo; [done|simpl; lia..].
  - unfold input. fold w2. destruct (w_input w2) as [|line lines] eqn:Hin; simpl.
    + exists [EvAttempt i (BicepTemplate.name t) RFalse]. split; [done|].
      split; [constructor; constructor|done].
    + destruct (upper line =? "N")%string; simpl.
      * exists [EvAttempt i (BicepTemplate.name t) RFalse; EvHalt i]. split.
        { unfold ret. simpl. rewrite Hev, <- app_assoc. done. }
        split; [apply trace_halt|]. intros s' f' [= <- <-]. simpl. lia.
      * apply Hgo; [done|simpl; lia..].
  - apply Hgo; [done|simpl; lia..].
Qed.

Lemma deploy_all_templates_loop_post (mode resource_group : string)
    (parameters_file : option Path) (skip_individual_validation : bool)
    (validation_mode : string) (ts : list BicepTemplate.t) :
  ∀ i s f w,
    loop_post i ts s f w
      (deploy_all_templates_loop mode resource_group parameters_file
         skip_individual_validation validation_mode i ts s f w).1
      (deploy_all_templates_loop mode resource_group parameters_file
         skip_individual_validation validation_mode i ts s f w).2.
Proof.
  induction ts as [|t rest IH]; intros i s f w.
  - exists []. simpl. rewrite app_nil_r. split; [done|]. split; [constructor|].
    intros s' f' [= <- <-]. simpl. lia.
  - set (next := deploy_all_templates_loop mode resource_group parameters_file
                   skip_individual_validation validation_mode (S i) rest).
    set (attempt := attempt_item mode resource_group parameters_file
                      skip_individual_validation validation_mode i t next s f).
    assert (Hcases :
      deploy_all_templates_loop mode resource_group parameters_file
        skip_individual_validation validation_mode i (t :: rest) s f w = attempt w
      ∨ (w_input w = [] ∧
         deploy_all_templates_loop mode resource_group parameters_file
           skip_individual_validation validation_mode i (t :: rest) s f w
         = (Raise (Exn EOFError "EOF when reading a line"), w))
      ∨ ∃ line lines, w_input w = line :: lines ∧
          (deploy_all_templates_loop mode resource_group parameters_file
             skip_individual_validation validation_mode i (t :: rest) s f w
           = attempt (set_input lines w)
           ∨ deploy_all_templates_loop mode resource_group parameters_file
               skip_individual_validation validation_mode i (t :: rest) s f w
             = next s f (add_event (EvDeclinedItem i (BicepTemplate.name t))
                           (set_input lines w)))).
    { cbn [deploy_all_templates_loop]. fold next. fold attempt.
      destruct (truthy _ && negb _); [|by left]. right.
      unfold bind, input, log, ret, modify.
      destruct (w_input w) as [|line lines]; [by left|]. right.
      exists line, lines. split; [done|].
      destruct (upper line =? "N")%string; [by right|by left]. }
    destruct Hcases as [->|[[Hin ->]|(line & lines & Hin & [->| ->])]].
    + by apply attempt_item_post.
    + exists []. rewrite app_nil_r. split; [done|]. split; [constructor|done].
    + pose proof (attempt_item_post mode resource_group parameters_file
                    skip_individual_validation validation_mode i t rest _
                    (IH (S i)) s f (set_input lines w)) as (tr & Htr & Hrest).
      exists tr. by split.
    + destruct (IH (S i) s f
                  (add_event (EvDeclinedItem i (BicepTemplate.name t)) (set_input lines w)))
        as (tr & Htr & Hshape & Hcount).
      exists (EvDeclinedItem i (BicepTemplate.name t) :: tr). split.
      { subst next. rewrite Htr. simpl. by rewrite <- app_assoc. }
      split; [by constructor|]. intros s' f' Hr. by apply Hcount.
Qed.

Lemma loop_post_bind {A} (m : M A) (k : A → M (nat * nat)) (i : nat) ts (w : World) :
  events_kept m →
  (∀ a w1, loop_post i ts 0 0 w1 (k a w1).1 (k a w1).2) →
  loop_post i ts 0 0 w (bind m k w).1 (bind m k w).2.
Proof.
  intros Hm Hk. unfold bind. specialize (Hm w).
  destruct (m w) as [[a|e] w1]; simpl in *.
  - destruct (Hk a w1) as (tr & Htr & Hrest). exists tr. split; [congruence|done].
  - exists []. rewrite app_nil_r. split; [done|]. split; [constructor|done].
Qed.

Lemma loop_post_nothing (i : nat) ts (w : World) :
  loop_post i ts 0 0 w (Ok (0, 0)%nat) w.
Proof.
  exists []. rewrite app_nil_r. split; [done|]. split; [constructor|].
  by intros s f [= <- <-].
Qed.

(** Every run of [deploy_all_templates] leaves a batch history over the
    enabled templates, and the counts it returns are those of the history. *)
Lemma deploy_all_templates_post (templates : list BicepTemplate.t)
    (resource_group : string) (parameters_file : option Path) (validation_mode : string)
    (w : World) :
  loop_post 1 (List.filter (λ t, truthy (BicepTemplate.enabled t)) templates) 0 0 w
    (deploy_all_templates templates resource_group parameters_file validation_mode w).1
    (deploy_all_templates templates resource_group parameters_file validation_mode w).2.
Proof.
  unfold deploy_all_templates.
  destruct (List.filter _ templates) as [|t0 ts0] eqn:Hen.
  { apply loop_post_nothing. }
  rewrite <- Hen. clear Hen.
  set (enabled := List.filter _ templates).
  apply loop_post_bind; [apply events_kept_validation_phase|].
  intros [skip|] w1; [|apply loop_post_nothing].
  apply loop_post_bind.
  { intros w0. apply get_deployment_mode_loop_events. }
  intros [mode|] w2; [|apply loop_post_nothing].
  apply loop_post_bind; [by intros w0|].
  intros _ w3. apply deploy_all_templates_loop_post.
Qed.

End Batch.

Section BatchClaim.
Context `{Datetime}.

(** C4. First, one step of the batch: when the deployment of the item at
    position [i] fails and the operator answers "N", the loop returns at once
    with the failure counted, whatever the rest of the loop is. Then, a whole
    run that returns [(s, f)]: its history [tr] lists each call of
    [deploy_bicep_template]; [s] counts the calls that returned [True] or
    "skipped" and [f] those that returned [False], so every attempted item is
    counted once and no other item is counted; positions are attempted in
    increasing order and belong to enabled templates; a halt is the last
    event, follows the failed attempt it answers, and no position after it is
    attempted. A history of one success or skip, one failure and a halt gives
    [(1, 1)]. *)
Theorem C4_batch_counts_and_halt :
  (∀ (mode resource_group : string) (parameters_file : option Path)
     (skip_individual_validation : bool) (validation_mode : string) (i : nat)
     (t : BicepTemplate.t) (next : nat → nat → M (nat * nat)) (s f : nat)
     (w w1 : World) (line : string) (lines : list string),
     deploy_bicep_template (BicepTemplate.file t)
       (if (i =? 1)%nat then mode else "Incremental") (BicepTemplate.name t)
       resource_group parameters_file
       (if (w_skip_unchanged_global w =? "prompt")%string then "prompt"
        else w_skip_unchanged_global w)
       skip_individual_validation validation_mode (BicepTemplate.needs_redeployment t) w
       = (Ok RFalse, w1) →
     w_input w1 = line :: lines →
     upper line = "N" →
     attempt_item mode resource_group parameters_file skip_individual_validation
       validation_mode i t next s f w
     = (Ok (s, S f),
        add_event (EvHalt i)
          (set_input lines (add_event (EvAttempt i (BicepTemplate.name t) RFalse) w1))))
  ∧ (∀ (templates : list BicepTemplate.t) (resource_group : string)
       (parameters_file : option Path) (validation_mode : string) (w w' : World)
       (s f : nat),
       deploy_all_templates templates resource_group parameters_file validation_mode w
         = (Ok (s, f), w') →
       ∃ tr,
         w_events w' = (w_events w ++ tr)%list
         ∧ s = count_successful tr ∧ f = count_failed tr
         ∧ (s + f)%nat = length (attempted tr)
         ∧ StronglySorted lt (attempted tr)
         ∧ (∀ j name result, EvAttempt j name result ∈ tr →
              ∃ t, (1 ≤ j)%nat
                ∧ List.filter (λ t, truthy (BicepTemplate.enabled t)) templates
                    !! (j - 1)%nat = Some t
                ∧ BicepTemplate.name t = name)
         ∧ (∀ k, EvHalt k ∈ tr →
              (∃ pre name, tr = (pre ++ [EvAttempt k name RFalse; EvHalt k])%list)
              ∧ ∀ j, j ∈ attempted tr → (j ≤ k)%nat)
         ∧ (∀ n1 n2 r1, r1 ≠ RFalse →
              tr = [EvAttempt 1 n1 r1; EvAttempt 2 n2 RFalse; EvHalt 2] →
              s = 1%nat ∧ f = 1%nat)).
Proof.
  split; [apply attempt_item_halts|].
  intros templates resource_group parameters_file validation_mode w w' s f Hrun.
  pose proof (deploy_all_templates_post templates resource_group parameters_file
                validation_mode w) as (tr & Hev & Hshape & Hcount).
  rewrite Hrun in Hev, Hcount. simpl in Hev, Hcount.
  destruct (Hcount s f eq_refl) as [Hs Hf]. simpl in Hs, Hf.
  exists tr. split; [done|]. split; [done|]. split; [done|].
  split; [rewrite Hs, Hf; apply counts_sum|].
  split; [by eapply batch_trace_sorted|].
  split; [intros j name result Hin; by eapply batch_trace_names|].
  split.
  - intros k Hk. split; [by eapply batch_trace_halt|by eapply batch_trace_nothing_after_halt].
  - intros n1 n2 r1 Hr1 ->. rewrite Hs, Hf. by destruct r1.
Qed.

End BatchClaim.

Lemma C4_witness :
  let run := @deploy_all_templates sample_datetime
               [sample_template "a.bicep"; sample_template "b.bicep";
                sample_template "c.bicep"] "rg" None "Skip" sample_world_batch in
  run.1 = Ok (1, 1)%nat
  ∧ w_events run.2
    = [EvAttempt 1 "a.bicep" RTrue; EvAttempt 2 "b.bicep" RFalse; EvHalt 2]
  ∧ ∃ tr, w_events run.2 = tr ∧ 1%nat = count_successful tr ∧ 1%nat = count_failed tr
      ∧ ∀ j, j ∈ attempted tr → (j ≤ 2)%nat.
Proof.
  intros run.
  assert (Hrun : run = (Ok (1, 1)%nat, run.2)) by (vm_compute; reflexivity).
  assert (Hev : w_events run.2
                = [EvAttempt 1 "a.bicep" RTrue; EvAttempt 2 "b.bicep" RFalse; EvHalt 2])
    by (vm_compute; reflexivity).
  split; [by rewrite Hrun|]. split; [exact Hev|].
  destruct (proj2 (@C4_batch_counts_and_halt sample_datetime) _ _ _ _ _ _ _ _ Hrun)
    as (tr & Htr & Hs & Hf & _ & _ & _ & Hhalt & _).
  exists tr. split; [exact Htr|]. split; [exact Hs|]. split; [exact Hf|].
  apply (Hhalt 2%nat). change (w_events run.2 = tr) in Htr. rewrite <- Htr, Hev.
  apply list_elem_of_further, list_elem_of_further, list_elem_of_here.
Defined.

(** * Further properties *)

(** ** Settings: round trips *)

Section SettingsRoundTrip.
Context `{Datetime}.


Lemma set_configuration_value_effect (key : string) (value : pyval) (w : World) :
  loadable w →
  ∃ w', set_configuration_value key value w = (Ok tt, w')
    ∧ loadable w'
    ∧ (∀ dflt, get_configuration_value key dflt w' = Ok value)
    ∧ (∀ key' dflt, key' ≠ key →
         get_configuration_value key' dflt w' = get_configuration_value key' dflt w)
    ∧ persisted_order w' = persisted_order w.
Proof.
  intros Hl. destruct (load_loadable w Hl) as [settings Hs].
  unfold set_configuration_value, bind, lift. rewrite Hs.
  eexists. split; [reflexivity|]. split; [done|].
  unfold get_configuration_value, persisted_order. rewrite Hs. simpl.
  split; [|split; [|done]].
  - intros dflt. unfold get_default. by rewrite lookup_insert_eq.
  - intros key' dflt Hne. unfold get_default. by rewrite lookup_insert_ne.
Qed.

(** X2. On a loadable settings file, storing a validation mode makes
    [get_validation_mode] return it, and changes neither the console width
    nor the resource group nor the persisted order. Without a settings file
    the getters answer their defaults, ["All"] and 75. *)
Theorem validation_mode_round_trip (validation_mode : string) (w : World) :
  loadable w →
  (∃ w', set_validation_mode validation_mode w = (Ok tt, w')
     ∧ get_validation_mode w' = Ok (VStr validation_mode)
     ∧ get_console_width w' = get_console_width w
     ∧ get_resource_group w' = get_resource_group w
     ∧ persisted_order w' = persisted_order w)
  ∧ (w_settings_file w = FileAbsent ∨ w_settings_file w = FileMalformed →
     get_validation_mode w = Ok (VStr "All") ∧ get_console_width w = Ok (VInt 75)).
Proof.
  intros Hl. split.
  - destruct (set_configuration_value_effect "ValidationMode" (VStr validation_mode) w Hl)
      as (w' & Hrun & _ & Hget & Hother & Hord).
    exists w'. split; [done|]. split; [apply Hget|].
    split; [by apply Hother|]. split; [by apply Hother|done].
  - intros Hfile. unfold get_validation_mode, get_console_width, get_configuration_value.
    by rewrite (load_absent_or_malformed w Hfile).
Qed.

(** X3. The toggle walks the cycle All, Changed, Skip: from any of the three
    modes, three toggles come back to it, and the settings file then holds it;
    from any other string one toggle gives ["All"]. *)
Theorem toggle_validation_mode_cycle (validation_mode : string) (w : World) :
  loadable w →
  (validation_mode = "All" ∨ validation_mode = "Changed" ∨ validation_mode = "Skip" →
   ∃ w', (m1 <- _handle_toggle_validation_mode validation_mode ;;
          m2 <- _handle_toggle_validation_mode m1 ;;
          _handle_toggle_validation_mode m2) w = (Ok validation_mode, w')
     ∧ get_validation_mode w' = Ok (VStr validation_mode))
  ∧ (validation_mode ≠ "All" → validation_mode ≠ "Changed" →
     ∃ w', _handle_toggle_validation_mode validation_mode w = (Ok "All", w')
       ∧ get_validation_mode w' = Ok (VStr "All")).
Proof.
  assert (Hstep : ∀ m w0, loadable w0 →
    ∃ w1, _handle_toggle_validation_mode m w0
            = (Ok (if (m =? "All")%string then "Changed"
                   else if (m =? "Changed")%string then "Skip" else "All"), w1)
      ∧ loadable w1
      ∧ get_validation_mode w1
        = Ok (VStr (if (m =? "All")%string then "Changed"
                    else if (m =? "Changed")%string then "Skip" else "All"))).
  { intros m w0 Hl0.
    destruct (set_configuration_value_effect "ValidationMode"
                (VStr (if (m =? "All")%string then "Changed"
                       else if (m =? "Changed")%string then "Skip" else "All")) w0 Hl0)
      as (w1 & Hrun & Hl1 & Hget & _).
    exists w1. unfold _handle_toggle_validation_mode, set_validation_mode, bind, log, ret.
    rewrite Hrun. split; [done|]. split; [done|]. apply Hget. }
  intros Hl. split.
  - intros Hmode.
    destruct (Hstep validation_mode w Hl) as (w1 & Hr1 & Hl1 & _).
    destruct (Hstep (if (validation_mode =? "All")%string then "Changed"
                     else if (validation_mode =? "Changed")%string then "Skip"
                     else "All") w1 Hl1) as (w2 & Hr2 & Hl2 & _).
    match type of Hr2 with _ = (Ok ?m2, _) =>
      destruct (Hstep m2 w2 Hl2) as (w3 & Hr3 & _ & Hget) end.
    exists w3. unfold bind at 1 2. rewrite Hr1, Hr2, Hr3.
    destruct Hmode as [->|[->| ->]]; simpl in *; by split.
  - intros Hna Hnc. destruct (Hstep validation_mode w Hl) as (w1 & Hr1 & _ & Hget).
    exists w1.
    destruct (String.eqb_spec validation_mode "All"); [done|].
    destruct (String.eqb_spec validation_mode "Changed"); [done|]. by split.
Qed.

End SettingsRoundTrip.

(** ** Recording a validation *)

Lemma validation_update_FileName success now msg (e : dict) :
  get (validation_update success now msg e) "FileName" = get e "FileName".
Proof. unfold validation_update, get. destruct (truthy_str msg); by simplify_map_eq. Qed.

Lemma validation_update_success success now msg (e : dict) :
  validation_update success now msg e !! "LastValidationSuccess" = Some (VBool success).
Proof. unfold validation_update. destruct (truthy_str msg); by simplify_map_eq. Qed.

Lemma validation_update_history success now msg (e : dict) :
  has_history (validation_update success now msg e) = true.
Proof.
  unfold has_history, has_key. simpl. rewrite validation_update_success.
  by rewrite !orb_true_r.
Qed.

Lemma validation_update_error success now msg (e : dict) :
  validation_update success now msg e !! "LastValidationError"
    = if truthy_str msg then Some (of_opt_str msg) else None.
Proof.
  unfold validation_update. destruct (truthy_str msg).
  - by rewrite lookup_insert_eq.
  - by rewrite lookup_delete_eq.
Qed.

Lemma validation_update_frame success now msg (e : dict) (k : string) :
  k ∉ validation_keys → validation_update success now msg e !! k = e !! k.
Proof.
  intros Hk. rewrite list_elem_of_In in Hk. simpl in Hk.
  assert (k ≠ "LastValidationSuccess") by (intros ->; apply Hk; auto).
  assert (k ≠ "LastValidation") by (intros ->; apply Hk; auto).
  assert (k ≠ "LastValidationError") by (intros ->; apply Hk; auto).
  unfold validation_update. destruct (truthy_str msg); by simplify_map_eq.
Qed.

Section RecordValidation.
Context `{Datetime}.

(** X4. [update_validation_history] on a loadable settings file returns; the
    file's record then has the outcome as [LastValidationSuccess] and the
    message, when a non-empty one is given, as [LastValidationError] (none
    otherwise). It writes the three validation keys only: the deployment
    outcome, error, time and content hash of every entry stay as they were,
    and the order grows by at most the one new entry. *)
Theorem update_validation_history_effect (w : World) (f : Path) (success : bool)
    (msg : option string) :
  loadable w →
  ∃ w',
    update_validation_history f success msg w = (Ok tt, w')
    ∧ loadable w'
    ∧ persisted_field w' f "LastValidationSuccess" = Some (VBool success)
    ∧ persisted_field w' f "LastValidationError"
      = (if truthy_str msg then Some (of_opt_str msg) else None)
    ∧ (∀ k, k ∉ validation_keys → k ≠ "FileName" → k ≠ "Enabled" →
         persisted_field w' f k = persisted_field w f k)
    ∧ (∀ i e, persisted_order w !! i = Some e →
         ∃ e', persisted_order w' !! i = Some e'
           ∧ ∀ k, k ∉ validation_keys → e' !! k = e !! k)
    ∧ (length (persisted_order w) ≤ length (persisted_order w')
         ≤ S (length (persisted_order w)))%nat.
Proof.
  intros Hl. destruct (load_loadable w Hl) as [settings Hs].
  set (upd := validation_update success (strftime (w_now w)) msg).
  destruct (find_entry_after_update upd f (file_order settings)) as (e0 & He0 & Hfind & Hat).
  { intros. apply validation_update_FileName. }
  { intros. apply validation_update_history. }
  destruct (find_or_create_found f (file_order settings)) as (e1 & He1 & _ & _ & Hcase).
  assert (e1 = e0) as -> by congruence.
  assert (Hpo : persisted_order w = file_order settings).
  { unfold persisted_order. by rewrite Hs. }
  assert (Hrun : ∃ w', update_validation_history f success msg w = (Ok tt, w')
            ∧ loadable w'
            ∧ persisted_order w'
              = alter upd (find_or_create f (file_order settings)).2
                  (find_or_create f (file_order settings)).1
            ∧ persisted_record w' f = Some (upd e0)).
  { unfold update_validation_history, bind, lift. rewrite Hs.
    destruct (find_or_create f (file_order settings)) as [order i] eqn:Hfc.
    simpl in *. eexists. split; [reflexivity|]. split; [done|]. split; [done|].
    unfold persisted_record. simpl. fold upd. by rewrite Hfind, Hat. }
  destruct Hrun as (w' & Hrun & Hl' & Hord & Hrec). clear Hfind Hat.
  exists w'. split; [done|]. split; [done|].
  unfold persisted_field. rewrite Hrec.
  split; [apply validation_update_success|].
  split; [apply validation_update_error|].
  rewrite Hpo, Hord. split; [|split].
  - intros k Hk Hfn Hen. subst upd. rewrite validation_update_frame by done.
    unfold persisted_record. rewrite Hs.
    destruct (find_entry [f; stem f] (file_order settings)) as [i|].
    + rewrite Hcase in He0. simpl in He0. by rewrite He0.
    + destruct Hcase as [_ ->]. by apply new_entry_other_key.
  - intros i e Hi.
    assert (Hi' : (find_or_create f (file_order settings)).1 !! i = Some e).
    { destruct (find_entry [f; stem f] (file_order settings)) as [j|].
      - by rewrite Hcase.
      - destruct Hcase as [-> _]. simpl. rewrite lookup_app_l; [done|].
        by eapply lookup_lt_Some. }
    destruct (decide (i = (find_or_create f (file_order settings)).2)) as [->|Hne].
    + rewrite list_lookup_alter_eq, Hi'. simpl. eexists. split; [done|].
      intros k Hk. by apply validation_update_frame.
    + rewrite list_lookup_alter_ne by done. by exists e.
  - rewrite length_alter. destruct (find_entry [f; stem f] (file_order settings)) as [j|].
    + rewrite Hcase. simpl. lia.
    + destruct Hcase as [-> _]. simpl. rewrite length_app. simpl. lia.
Qed.

End RecordValidation.

Lemma update_validation_history_witness :
  let w := sample_world (sample_settings [sample_deployed_record])
             [sample_file "main.bicep" 500 "def"] in
  ∃ w', @update_validation_history sample_datetime "main.bicep" false (Some "bad") w
          = (Ok tt, w')
    ∧ persisted_field w' "main.bicep" "LastValidationError" = Some (VStr "bad")
    ∧ persisted_field w' "main.bicep" "LastFileHash" = Some (VStr "abc").
Proof.
  intros w.
  destruct (@update_validation_history_effect sample_datetime w "main.bicep" false
              (Some "bad") I) as (w' & Hrun & _ & _ & Herr & Hframe & _).
  exists w'. split; [exact Hrun|]. split; [exact Herr|].
  rewrite (Hframe "LastFileHash").
  - reflexivity.
  - rewrite list_elem_of_In. simpl. intros [Hk|[Hk|[Hk|[]]]]; discriminate Hk.
  - discriminate.
  - discriminate.
Defined.

(** ** Enabling and disabling *)

(** The search only looks at the names and at whether an entry has history. *)
Lemma find_entry_loop_ext (names : list string) (l1 l2 : list dict) (i0 : nat) s :
  Forall2 (λ e1 e2, in_strs (get e1 "FileName") names = in_strs (get e2 "FileName") names
                    ∧ has_history e1 = has_history e2) l1 l2 →
  find_entry_loop names l1 i0 s = find_entry_loop names l2 i0 s.
Proof.
  intros Hall. revert i0 s.
  induction Hall as [|e1 e2 l1 l2 [Hn Hh] _ IH]; intros i0 s; simpl; [done|].
  rewrite Hn, Hh. destruct (in_strs (get e2 "FileName") names); [|apply IH].
  destruct (has_history e2); [done|apply IH].
Qed.

Lemma find_entry_loop_appended (names : list string) (l : list dict) (e : dict) i0 s :
  (∀ j e', l !! j = Some e' → ¬ named names e') →
  named names e → has_history e = false →
  find_entry_loop names (l ++ [e]) i0 s = (None, Some (i0 + length l)%nat).
Proof.
  intros Hnone Hn Hh. revert i0 s.
  induction l as [|x l IH]; intros i0 s; simpl.
  - unfold named in Hn. rewrite Hn, Hh. by rewrite Nat.add_0_r.
  - destruct (in_strs (get x "FileName") names) eqn:Hx.
    + by destruct (Hnone 0%nat x).
    + rewrite IH; [f_equal; f_equal; lia|].
      intros j e' Hj. by apply (Hnone (S j)).
Qed.

Lemma has_history_set_enabled (b : bool) (e : dict) :
  has_history (<["Enabled" := VBool b]> e) = has_history e.
Proof. unfold has_history, has_key. simpl. by rewrite !lookup_insert_ne. Qed.

Section Enabling.
Context `{Datetime}.

(** X5. Enabling a zero-byte file is refused: [set_template_enabled] returns
    [False] and leaves the world as it is, settings file included. In every
    other case, on a loadable settings file, it returns [True]; the file's
    record then has the requested [Enabled] value, every entry keeps all its
    other fields, and the order grows by at most the one new entry. *)
Theorem set_template_enabled_effect (w : World) (template_name : string) (enabled : bool) :
  (∀ template_file, find_file w template_name = Some template_file →
     df_size template_file = 0%Z →
     set_template_enabled template_name true w = (Ok false, w))
  ∧ ((∀ template_file, find_file w template_name = Some template_file →
        df_size template_file = 0%Z → enabled = false) →
     loadable w →
     ∃ w', set_template_enabled template_name enabled w = (Ok true, w')
       ∧ loadable w'
       ∧ persisted_field w' template_name "Enabled" = Some (VBool enabled)
       ∧ (∀ i e, persisted_order w !! i = Some e →
            ∃ e', persisted_order w' !! i = Some e'
              ∧ ∀ k, k ≠ "Enabled" → e' !! k = e !! k)
       ∧ (length (persisted_order w) ≤ length (persisted_order w')
            ≤ S (length (persisted_order w)))%nat).
Proof.
  split.
  - intros template_file Hfile Hsize.
    unfold set_template_enabled, bind, lift, log, ret. rewrite Hfile, Hsize. done.
  - intros Hok Hl. destruct (load_loadable w Hl) as [settings Hs].
    assert (Hblocked : match find_file w template_name with
                       | Some template_file => (df_size template_file =? 0)%Z && enabled
                       | None => false
                       end = false).
    { destruct (find_file w template_name) as [template_file|]; [|done].
      destruct (Z.eqb_spec (df_size template_file) 0); [|done].
      by rewrite (Hok template_file eq_refl). }
    unfold set_template_enabled, bind, lift, ret. rewrite Hblocked, Hs.
    assert (Hpo : persisted_order w = file_order settings).
    { unfold persisted_order. by rewrite Hs. }
    rewrite Hpo. eexists. split; [reflexivity|]. split; [done|].
    unfold persisted_field, persisted_record, persisted_order. simpl.
    destruct (find_entry [template_name; stem template_name] (file_order settings))
      as [i|] eqn:Hfind.
    + destruct (find_entry_Some _ _ _ Hfind) as (e & He & Hn & _).
      assert (Hsame : find_entry [template_name; stem template_name]
                        (alter (λ file_entry, <["Enabled" := VBool enabled]> file_entry) i
                           (file_order settings)) = Some i).
      { rewrite <- Hfind. unfold find_entry.
        rewrite (find_entry_loop_ext [template_name; stem template_name]
                   (alter (λ file_entry, <["Enabled" := VBool enabled]> file_entry) i
                      (file_order settings)) (file_order settings)); [done|].
        apply Forall2_same_length_lookup. split; [by rewrite length_alter|].
        intros j e1 e2 H1 H2.
        destruct (decide (j = i)) as [->|Hne].
        - rewrite list_lookup_alter_eq, He in H1. simpl in H1.
          injection H1 as <-. assert (e2 = e) as -> by congruence.
          split; [|apply has_history_set_enabled].
          unfold get. by rewrite lookup_insert_ne.
        - rewrite list_lookup_alter_ne in H1 by done.
          by assert (e1 = e2) as -> by congruence. }
      rewrite Hsame, list_lookup_alter_eq, He. simpl.
      split; [by rewrite lookup_insert_eq|]. split.
      * intros j e' Hj. destruct (decide (j = i)) as [->|Hne].
        -- rewrite list_lookup_alter_eq, Hj. simpl. eexists. split; [done|].
           intros k Hk. by rewrite lookup_insert_ne.
        -- rewrite list_lookup_alter_ne by done. by exists e'.
      * rewrite length_alter. lia.
    + pose proof (find_entry_None _ _ Hfind) as Hnone.
      assert (Hnew : find_entry [template_name; stem template_name]
                (file_order settings
                 ++ [{[ "FileName" := VStr template_name; "Enabled" := VBool enabled ]}])
              = Some (length (file_order settings))).
      { unfold find_entry. rewrite find_entry_loop_appended; [done|done| |].
        - unfold named, get. rewrite lookup_insert_eq. simpl.
          by rewrite String.eqb_refl.
        - unfold has_history, has_key. simpl. by simplify_map_eq. }
      rewrite Hnew, list_lookup_middle by done.
      split; [by simplify_map_eq|]. split.
      * intros j e' Hj. exists e'. split; [|done].
        rewrite lookup_app_l; [done|]. by eapply lookup_lt_Some.
      * rewrite length_app. simpl. lia.
Qed.

End Enabling.

Lemma set_template_enabled_witness :
  let w := sample_world (sample_settings [sample_deployed_record])
             [{| df_name := "empty.bicep"; df_size := 0; df_mtime := 1; df_hash := Some "e3b0" |};
              sample_file "main.bicep" 500 "abc"] in
  @set_template_enabled sample_datetime "empty.bicep" true w = (Ok false, w)
  ∧ ∃ w', @set_template_enabled sample_datetime "main.bicep" false w = (Ok true, w')
      ∧ persisted_field w' "main.bicep" "Enabled" = Some (VBool false)
      ∧ ∃ e', persisted_order w' !! 0%nat = Some e'
          ∧ e' !! "LastFileHash" = Some (VStr "abc").
Proof.
  intros w. split.
  - eapply (proj1 (@set_template_enabled_effect sample_datetime w "empty.bicep" true));
      reflexivity.
  - destruct (proj2 (@set_template_enabled_effect sample_datetime w "main.bicep" false))
      as (w' & Hrun & _ & Hen & Hframe & _).
    + intros template_file Hfile Hsize. reflexivity.
    + exact I.
    + exists w'. split; [exact Hrun|]. split; [exact Hen|].
      destruct (Hframe 0%nat sample_deployed_record eq_refl) as (e' & He' & Hk).
      exists e'. split; [exact He'|]. rewrite (Hk "LastFileHash"); [reflexivity|discriminate].
Defined.

(** ** Which entry stands for a file *)

Lemma find_entry_loop_simple_last (names : list string) (l : list dict) (i0 : nat) s k :
  find_entry_loop names l i0 s = (None, Some k) →
  (s = Some k ∧ ∀ j e, l !! j = Some e → ¬ named names e)
  ∨ ∃ j e, k = (i0 + j)%nat ∧ l !! j = Some e ∧ named names e
      ∧ ∀ j' e', (j < j')%nat → l !! j' = Some e' → ¬ named names e'.
Proof.
  revert i0 s. induction l as [|x l IH]; intros i0 s; simpl.
  - intros [= ->]. left. split; [done|]. by intros j e.
  - destruct (in_strs (get x "FileName") names) eqn:Hx.
    + destruct (has_history x); [done|]. intros Hloop.
      right. destruct (IH _ _ Hloop) as [[[= <-] Hnone]|(j & e & -> & Hj & Hn & Hlast)].
      * exists 0%nat, x. rewrite Nat.add_0_r. repeat split; try done.
        intros [|j'] e' Hlt He'; [lia|]. by apply (Hnone j').
      * exists (S j), e. repeat split; try done; [lia|].
        intros [|j'] e' Hlt He'; [lia|]. apply (Hlast j'); [lia|done].
    + intros Hloop.
      destruct (IH _ _ Hloop) as [[-> Hnone]|(j & e & -> & Hj & Hn & Hlast)].
      * left. split; [done|]. intros [|j] e He; simpl in He.
        -- injection He as <-. unfold named. congruence.
        -- by apply (Hnone j).
      * right. exists (S j), e. repeat split; try done; [lia|].
        intros [|j'] e' Hlt He'; [lia|]. apply (Hlast j'); [lia|done].
Qed.

(** X6. The entry that stands for a file: among the entries stored under one
    of the names, the first that has deployment or validation history; when
    none of them has history, the last of them; and none exactly when no
    entry is stored under these names. *)
Theorem find_entry_prefers_history (names : list string) (l : list dict) :
  match find_entry names l with
  | Some k =>
      ∃ e, l !! k = Some e ∧ named names e
        ∧ ((has_history e = true
            ∧ ∀ j e', (j < k)%nat → l !! j = Some e' → named names e' →
                has_history e' = false)
           ∨ ((∀ j e', l !! j = Some e' → named names e' → has_history e' = false)
              ∧ ∀ j e', (k < j)%nat → l !! j = Some e' → ¬ named names e'))
  | None => ∀ j e, l !! j = Some e → ¬ named names e
  end.
Proof.
  destruct (find_entry names l) as [k|] eqn:Hfind; [|by apply find_entry_None].
  unfold find_entry in Hfind.
  pose proof (find_entry_loop_spec names l 0 None) as Hspec.
  destruct (find_entry_loop names l 0 None) as [[i|] s'] eqn:Hloop.
  - injection Hfind as ->. destruct Hspec as (j & e & -> & Hj & Hn & Hh & Hb).
    exists e. split; [done|]. split; [done|]. by left.
  - destruct s' as [i|]; [|done]. injection Hfind as ->.
    destruct Hspec as [Hno _].
    destruct (find_entry_loop_simple_last _ _ _ _ _ Hloop)
      as [[[=] _]|(j & e & -> & Hj & Hn & Hlast)].
    exists e. split; [done|]. split; [done|]. right. by split.
Qed.

(** ** Reordering keeps the records *)

Section ReorderKeeps.
Context `{Datetime}.


End ReorderKeeps.


Lemma validation_mode_round_trip_witness :
  let w := sample_world (sample_settings [sample_deployed_record]) [] in
  ∃ w', @set_validation_mode sample_datetime "Changed" w = (Ok tt, w')
    ∧ get_validation_mode w' = Ok (VStr "Changed")
    ∧ persisted_order w' = [sample_deployed_record].
Proof.
  intros w.
  destruct (proj1 (@validation_mode_round_trip sample_datetime "Changed" w I))
    as (w' & Hrun & Hget & _ & _ & Hord).
  exists w'. split; [exact Hrun|]. split; [exact Hget|]. exact Hord.
Defined.

Lemma toggle_validation_mode_cycle_witness :
  let w := sample_world FileAbsent [] in
  ∃ w', (m1 <- @_handle_toggle_validation_mode sample_datetime "Changed" ;;
         m2 <- @_handle_toggle_validation_mode sample_datetime m1 ;;
         @_handle_toggle_validation_mode sample_datetime m2) w = (Ok "Changed", w')
    ∧ get_validation_mode w' = Ok (VStr "Changed").
Proof.
  intros w.
  apply (proj1 (@toggle_validation_mode_cycle sample_datetime "Changed" w I)).
  right. left. reflexivity.
Defined.

(** ** What discovery returns *)

Lemma key_le_total (k1 k2 : nat * string) : key_le k1 k2 = false → key_le k2 k1 = true.
Proof.
  unfold key_le. destruct k1 as [n1 s1], k2 as [n2 s2]. simpl.
  destruct (Nat.ltb_spec n1 n2); [done|]. simpl.
  destruct (Nat.eqb_spec n1 n2) as [->|Hne]; simpl.
  - intros Hleb. rewrite Nat.ltb_irrefl, Nat.eqb_refl. simpl.
    by destruct (String.leb_total s1 s2) as [Ht|Ht]; [congruence|].
  - intros _. assert (n2 < n1)%nat as Hlt by lia.
    apply Nat.ltb_lt in Hlt. by rewrite Hlt.
Qed.

Lemma insert_sorted_Sorted key (x : BicepTemplate.t) (l : list BicepTemplate.t) :
  Sorted (λ a b, key_le (key a) (key b) = true) l →
  Sorted (λ a b, key_le (key a) (key b) = true) (insert_sorted key x l).
Proof.
  induction 1 as [|y l Hs IH Hhd]; simpl; [by repeat constructor|].
  destruct (key_le (key x) (key y)) eqn:Hle.
  - constructor; [by constructor|by constructor].
  - constructor; [done|].
    destruct l as [|z l]; simpl in *.
    + constructor. by apply key_le_total.
    + destruct (key_le (key x) (key z)).
      * constructor. by apply key_le_total.
      * constructor. by inversion Hhd.
Qed.

Lemma sorted_Sorted key (l : list BicepTemplate.t) :
  Sorted (λ a b, key_le (key a) (key b) = true) (sorted key l).
Proof.
  unfold sorted. induction l as [|x l IH]; simpl; [constructor|].
  by apply insert_sorted_Sorted.
Qed.

Section DiscoveryResult.
Context `{Datetime}.

Lemma make_template_enabled (w : World) (settings : DeploymentSettings) (file : DiskFile)
    (t : BicepTemplate.t) :
  make_template w settings file = Ok t →
  (BicepTemplate.size t = 0%Z → BicepTemplate.enabled t = VBool false)
  ∧ BicepTemplate.file t = BicepTemplate.name t.
Proof.
  unfold make_template.
  destruct (stat w (df_name file)) as [st|]; simpl; [|done].
  destruct (_determine_deployment_status _ _ _) as [[needs h]|]; simpl; [|done].
  destruct (time_if _ "LastDeployment"); simpl; [|done].
  destruct (time_if _ "LastValidation"); simpl; [|done].
  intros [= <-]. simpl. split; [|done]. intros ->. done.
Qed.

(** X8. When [get_bicep_files] returns, it returns one template per file on
    disk, under the file's name; the list is in the order of the sort key
    (position of the first persisted entry stored under the name or the stem,
    files without one last, then name); and a zero-byte file is always
    disabled, whatever its record says. *)
Theorem get_bicep_files_result (w : World) (settings : DeploymentSettings)
    (templates : list BicepTemplate.t) :
  load_deployment_settings w = Ok settings →
  get_bicep_files w = Ok templates →
  map BicepTemplate.name templates ≡ₚ map df_name (w_disk w)
  ∧ Sorted (λ a b, key_le (sort_key settings a) (sort_key settings b) = true) templates
  ∧ Forall (λ t, BicepTemplate.size t = 0%Z → BicepTemplate.enabled t = VBool false)
      templates.
Proof.
  intros Hs. unfold get_bicep_files. rewrite Hs. simpl.
  destruct (mapM (make_template w settings) (w_disk w)) as [ts|] eqn:Hts; simpl; [|done].
  intros [= <-].
  assert (Hall : Forall2 (λ file t, make_template w settings file = Ok t) (w_disk w) ts).
  { clear Hs. revert ts Hts. generalize (w_disk w) as disk.
    induction disk as [|file disk IH]; intros ts; simpl.
    - by intros [= <-].
    - destruct (make_template w settings file) as [t|] eqn:Ht; simpl; [|done].
      destruct (mapM _ disk) as [ts'|]; simpl; [|done].
      intros [= <-]. constructor; [done|]. by apply IH. }
  split; [|split].
  - rewrite sorted_perm. clear Hts.
    induction Hall as [|file t disk ts Hft _ IH]; [done|].
    simpl. by rewrite (make_template_name _ _ _ _ Hft), IH.
  - apply sorted_Sorted.
  - rewrite sorted_perm. clear Hts.
    induction Hall as [|file t disk ts Hft _ IH]; constructor; [|done].
    by apply (make_template_enabled _ _ _ _ Hft).
Qed.

End DiscoveryResult.

Lemma get_bicep_files_result_witness :
  let zero := {| df_name := "a.bicep"; df_size := 0; df_mtime := 1; df_hash := Some "e3b0" |} in
  let w := sample_world (sample_settings [sample_deployed_record])
             [zero; sample_file "main.bicep" 500 "abc"] in
  ∃ templates, @get_bicep_files sample_datetime w = Ok templates
    ∧ map BicepTemplate.name templates = ["main.bicep"; "a.bicep"]
    ∧ Forall (λ t, BicepTemplate.size t = 0%Z → BicepTemplate.enabled t = VBool false)
        templates.
Proof.
  intros zero w.
  destruct (@get_bicep_files sample_datetime w) as [templates|] eqn:Hget;
    [|vm_compute in Hget; discriminate Hget].
  exists templates. split; [reflexivity|]. split.
  - revert Hget. vm_compute. intros [= <-]. reflexivity.
  - eapply (@get_bicep_files_result sample_datetime w); [reflexivity|exact Hget].
Defined.

(** ** What a deployment leaves behind *)

Lemma deployment_update_hash success now h msg (e : dict) :
  deployment_update success now h msg e !! "LastFileHash" = Some (of_opt_str h).
Proof. unfold deployment_update. destruct (truthy_str msg); by simplify_map_eq. Qed.

Lemma hash_same_disk (w w' : World) (f : Path) :
  w_disk w' = w_disk w → _get_current_file_hash w' f = _get_current_file_hash w f.
Proof. unfold _get_current_file_hash, find_file. by intros ->. Qed.

Section DeployOutcome.
Context `{Datetime}.

Lemma update_deployment_history_Ok_loadable (f : Path) (success : bool) msg (w w' : World) :
  update_deployment_history f success msg w = (Ok tt, w') → loadable w.
Proof.
  unfold update_deployment_history, bind, lift.
  destruct (load_deployment_settings w) eqn:Hs; [|done].
  intros _. by eapply load_Ok_loadable.
Qed.

(** Logging, recording and returning [r]: either the record is written and
    [r] returned, or the load inside the update raised and nothing changed. *)
Lemma record_and_return (f : Path) (success : bool) (error_message : option string)
    (message : string) (r : DeployResult) (w : World) :
  (∃ w', (log message ;; update_deployment_history f success error_message ;; ret r) w
           = (Ok r, w')
      ∧ update_deployment_history f success error_message w = (Ok tt, w'))
  ∨ ∃ e, (log message ;; update_deployment_history f success error_message ;; ret r) w
           = (Raise e, w).
Proof.
  unfold bind, log, ret.
  destruct (update_deployment_history f success error_message w) as [[[]|e] w'] eqn:Hup.
  - left. by exists w'.
  - right. exists e. revert Hup. unfold update_deployment_history, bind, lift.
    destruct (load_deployment_settings w); [|by intros [= -> ->]].
    destruct (find_or_create _ _). done.
Qed.

Lemma deploy_step_inv f mode template_name resource_group parameters_file (w0 w : World) :
  same_store w0 w →
  match deploy_step f mode template_name resource_group parameters_file w with
  | (Ok r, w') => deploy_done f r w0 w' ∧ r ≠ RSkipped
  | (Raise e, w1) => same_store w0 w1
  end.
Proof.
  intros Hsame. unfold deploy_step, show_progress_spinner, call_tool.
  unfold bind at 1. destruct (w_deploy _ _ _ _ _) as [success message|e]; [|done].
  destruct success.
  - destruct (record_and_return f true None ("Successfully deployed " ++ template_name)
                RTrue w) as [(w' & -> & Hup)|(e & ->)]; [|done].
    split; [|done]. by exists w.
  - destruct (record_and_return f false (Some ("Deployment failed: " ++ message))
                ("Deployment failed: " ++ message) RFalse w) as [(w' & -> & Hup)|(e & ->)];
      [|done].
    split; [|done]. by exists w, ("Deployment failed: " ++ message).
Qed.

Lemma check_unchanged_true f template_name skip_unchanged (w w1 : World) :
  check_unchanged f template_name skip_unchanged w = (Ok true, w1) →
  test_template_modified w f = Ok false.
Proof.
  unfold check_unchanged, bind, lift, log, ret.
  destruct (test_template_modified w f) as [[|]|]; done.
Qed.

Lemma deploy_bicep_template_try_inv f mode template_name resource_group parameters_file
    skip_unchanged skip_validation validation_mode needs (w : World) :
  match deploy_bicep_template_try f mode template_name resource_group parameters_file
          skip_unchanged skip_validation validation_mode needs w with
  | (Ok r, w') => deploy_done f r w w'
  | (Raise e, w1) => same_store w w1
  end.
Proof.
  unfold deploy_bicep_template_try. unfold bind at 1. unfold lift at 1.
  destruct (stat w f) as [st|e]; [|apply same_store_refl].
  destruct (df_size st =? 0)%Z.
  - destruct (record_and_return f false
                (Some ("Cannot deploy empty template file: " ++ template_name))
                ("Cannot deploy empty template file: " ++ template_name) RFalse w)
      as [(w' & -> & Hup)|(e & ->)]; [|apply same_store_refl].
    exists w, ("Cannot deploy empty template file: " ++ template_name).
    split; [apply same_store_refl|]. by split.
  - unfold bind at 1.
    pose proof (check_unchanged_same_store f template_name skip_unchanged w) as Hsame.
    destruct (check_unchanged f template_name skip_unchanged w) as [[skipped|e] w1] eqn:Hcu;
      simpl in Hsame; [|done].
    destruct skipped.
    + split; [done|]. by eapply check_unchanged_true.
    + unfold validate_and_deploy, show_progress_spinner, call_tool.
      destruct (should_validate _ _ _).
      * unfold bind at 1.
        destruct (w_validate _ _ _ _) as [is_valid message|e]; [|done].
        destruct is_valid; simpl.
        -- pose proof (deploy_step_inv f mode template_name resource_group
                         parameters_file w w1 Hsame) as Hstep.
           by destruct (deploy_step _ _ _ _ _ w1) as [[r|e] w2]; [destruct Hstep|].
        -- destruct (record_and_return f false
                       (Some ("Template validation failed: " ++ message))
                       ("Template validation failed: " ++ message) RFalse w1)
             as [(w' & -> & Hup)|(e & ->)]; [|done].
           by exists w1, ("Template validation failed: " ++ message).
      * pose proof (deploy_step_inv f mode template_name resource_group
                      parameters_file w w1 Hsame) as Hstep.
        by destruct (deploy_step _ _ _ _ _ w1) as [[r|e] w2]; [destruct Hstep|].
Qed.

(** X9. Whenever [deploy_bicep_template] returns, what it did is one of three
    things. "skipped": the change check found the template unchanged, and the
    settings file, the disk and the batch history are as before. [True]:
    the last thing it did was to record a success. [False]: the last thing it
    did was to record a failure with a non-empty message. In each case at
    most one record was written. *)
Theorem deploy_bicep_template_outcome f mode template_name resource_group parameters_file
    skip_unchanged skip_validation validation_mode needs (w w' : World)
    (result : DeployResult) :
  deploy_bicep_template f mode template_name resource_group parameters_file
    skip_unchanged skip_validation validation_mode needs w = (Ok result, w') →
  deploy_done f result w w'.
Proof.
  unfold deploy_bicep_template, try_except.
  pose proof (deploy_bicep_template_try_inv f mode template_name resource_group
                parameters_file skip_unchanged skip_validation validation_mode needs w)
    as Hbody.
  destruct (deploy_bicep_template_try _ _ _ _ _ _ _ _ _ w) as [[r|e] w1].
  - by intros [= <- <-].
  - destruct (record_and_return f false
                (Some ("Unexpected error during deployment: " ++ str_of e))
                ("Unexpected error during deployment: " ++ str_of e) RFalse w1)
      as [(w2 & -> & Hup)|(e' & ->)]; [|done].
    intros [= <- <-]. by exists w1, ("Unexpected error during deployment: " ++ str_of e).
Qed.

(** X10. After [deploy_bicep_template] returned [True] for a file that can be
    hashed, the file's record holds the success, no error and the current
    content hash, and the change detector, given that record, answers "no
    redeployment needed". After it returned [False], the detector answers
    "needs redeployment". *)
Theorem deploy_then_detect f mode template_name resource_group parameters_file
    skip_unchanged skip_validation validation_mode needs (w w' : World) :
  (deploy_bicep_template f mode template_name resource_group parameters_file
     skip_unchanged skip_validation validation_mode needs w = (Ok RTrue, w') →
   persisted_field w' f "LastDeploymentSuccess" = Some (VBool true)
   ∧ persisted_field w' f "LastDeploymentError" = None
   ∧ persisted_field w' f "LastFileHash" = Some (of_opt_str (_get_current_file_hash w f))
   ∧ ∀ h, _get_current_file_hash w f = Some h → h ≠ "" →
       _determine_deployment_status w' f (persisted_record w' f) = Ok (false, Some h))
  ∧ (deploy_bicep_template f mode template_name resource_group parameters_file
       skip_unchanged skip_validation validation_mode needs w = (Ok RFalse, w') →
     failure_recorded w' f
     ∧ _determine_deployment_status w' f (persisted_record w' f)
       = Ok (true, _get_current_file_hash w f)).
Proof.
  assert (Hrec : ∀ success msg w1, same_store w w1 →
    update_deployment_history f success msg w1 = (Ok tt, w') →
    ∃ e, persisted_record w' f
           = Some (deployment_update success (strftime (w_now w1))
                     (_get_current_file_hash w f) msg e)
      ∧ _get_current_file_hash w' f = _get_current_file_hash w f).
  { intros success msg w1 Hsame Hup.
    pose proof (update_deployment_history_Ok_loadable _ _ _ _ _ Hup) as Hl1.
    destruct (update_deployment_history_record w1 f success msg Hl1)
      as (w2 & e & Hrun & _ & Hw2 & _ & Hrec).
    assert (w2 = w') as -> by congruence.
    exists e. destruct Hsame as (_ & Hdisk & _).
    rewrite Hrec, (hash_same_disk w w1) by done. split; [done|].
    rewrite Hw2. by apply hash_same_disk. }
  split; intros Hrun; apply deploy_bicep_template_outcome in Hrun; simpl in Hrun.
  - destruct Hrun as (w1 & Hsame & Hup).
    destruct (Hrec true None w1 Hsame Hup) as (e & Hpr & Hhash).
    unfold persisted_field. rewrite Hpr.
    rewrite deployment_update_success, deployment_update_error, deployment_update_hash.
    repeat split; try done.
    intros h Hh Hne. unfold _determine_deployment_status. rewrite Hhash, Hh.
    rewrite (dict_truthy_lookup _ "LastDeploymentSuccess" (VBool true))
      by apply deployment_update_success.
    unfold get. rewrite deployment_update_success, deployment_update_hash. simpl.
    destruct (String.eqb_spec h ""); [done|]. simpl. by rewrite String.eqb_refl.
  - destruct Hrun as (w1 & msg & Hsame & Hne & Hup).
    destruct (Hrec false (Some msg) w1 Hsame Hup) as (e & Hpr & Hhash).
    split.
    + unfold failure_recorded, persisted_field. rewrite Hpr.
      split; [apply deployment_update_success|]. exists msg. split; [done|].
      rewrite deployment_update_error. simpl. by destruct (String.eqb_spec msg "").
    + rewrite Hpr. unfold _determine_deployment_status. rewrite Hhash.
      rewrite (dict_truthy_lookup _ "LastDeploymentSuccess" (VBool false))
        by apply deployment_update_success.
      unfold get. by rewrite deployment_update_success.
Qed.

End DeployOutcome.

Lemma deploy_bicep_template_outcome_witness :
  let w := sample_world_typing (sample_settings [sample_deployed_record])
             [sample_file "main.bicep" 500 "abc"] ["n"] in
  ∃ w', @deploy_bicep_template sample_datetime "main.bicep" "Incremental" "main.bicep"
          "rg" None "prompt" false "All" false w = (Ok RSkipped, w')
    ∧ w_settings_file w' = w_settings_file w.
Proof.
  intros w.
  destruct (@deploy_bicep_template sample_datetime "main.bicep" "Incremental" "main.bicep"
              "rg" None "prompt" false "All" false w) as [r w'] eqn:Hrun.
  assert (Hr : r = Ok RSkipped) by (revert Hrun; vm_compute; congruence).
  subst r. exists w'. split; [reflexivity|].
  apply (@deploy_bicep_template_outcome sample_datetime) in Hrun.
  destruct Hrun as [Hsame _]. apply Hsame.
Defined.

Lemma deploy_then_detect_witness :
  let w := sample_world FileAbsent [sample_file "main.bicep" 500 "abc"] in
  ∃ w', @deploy_bicep_template sample_datetime "main.bicep" "Incremental" "main.bicep"
          "rg" None "prompt" false "All" true w = (Ok RTrue, w')
    ∧ @_determine_deployment_status sample_datetime w' "main.bicep"
        (persisted_record w' "main.bicep") = Ok (false, Some "abc").
Proof.
  intros w.
  destruct (@deploy_bicep_template sample_datetime "main.bicep" "Incremental" "main.bicep"
              "rg" None "prompt" false "All" true w) as [r w'] eqn:Hrun.
  assert (Hr : r = Ok RTrue) by (revert Hrun; vm_compute; congruence).
  subst r. exists w'. split; [reflexivity|].
  destruct (proj1 (@deploy_then_detect sample_datetime _ _ _ _ _ _ _ _ _ _ _) Hrun)
    as (_ & _ & _ & Hdetect).
  apply Hdetect; [reflexivity|discriminate].
Defined.

(** ** Asking the operator *)

(** X11. With the sticky choice at "prompt", [confirm_deploy_unchanged]
    answers "deploy" or "skip" only. After the answer "A" the sticky choice is
    "skip": this and every later call return "skip" without reading any
    input; likewise "L" and "deploy". The answers "Y", "N" and the empty line
    decide this one template and leave the sticky choice at "prompt". *)
Theorem confirm_deploy_unchanged_sticky (template_name : string) (w : World) :
  w_skip_unchanged_global w = "prompt" →
  (∀ action w1, confirm_deploy_unchanged template_name w = (Ok action, w1) →
     action = "deploy" ∨ action = "skip")
  ∧ (∀ line rest, w_input w = line :: rest →
       (upper line = "A" →
        ∃ w1, confirm_deploy_unchanged template_name w = (Ok "skip", w1)
          ∧ w_input w1 = rest
          ∧ ∀ other_name, confirm_deploy_unchanged other_name w1 = (Ok "skip", w1))
       ∧ (upper line = "L" →
          ∃ w1, confirm_deploy_unchanged template_name w = (Ok "deploy", w1)
            ∧ w_input w1 = rest
            ∧ ∀ other_name, confirm_deploy_unchanged other_name w1 = (Ok "deploy", w1))
       ∧ (upper line = "N" →
          ∃ w1, confirm_deploy_unchanged template_name w = (Ok "skip", w1)
            ∧ w_input w1 = rest ∧ w_skip_unchanged_global w1 = "prompt")
       ∧ (upper line = "Y" ∨ upper line = "" →
          ∃ w1, confirm_deploy_unchanged template_name w = (Ok "deploy", w1)
            ∧ w_input w1 = rest ∧ w_skip_unchanged_global w1 = "prompt")).
Proof.
  intros Hprompt. unfold confirm_deploy_unchanged. rewrite Hprompt. simpl. split.
  - generalize (w_input w) as lines. clear Hprompt. revert w.
    intros w lines. revert w. induction lines as [|line rest IH]; intros w action w1; simpl.
    + done.
    + repeat case_match; try (intros [= <- <-]; by auto). apply IH.
  - intros line rest ->. simpl. repeat split.
    + intros ->. simpl. eexists. by repeat split.
    + intros ->. simpl. eexists. by repeat split.
    + intros ->. simpl. eexists. by repeat split.
    + intros [-> | ->]; simpl; eexists; by repeat split.
Qed.

Lemma confirm_deploy_unchanged_sticky_witness :
  let w := sample_world_typing FileAbsent [] ["a"; "y"] in
  ∃ w1, confirm_deploy_unchanged "main.bicep" w = (Ok "skip", w1)
    ∧ w_input w1 = ["y"]
    ∧ confirm_deploy_unchanged "net.bicep" w1 = (Ok "skip", w1).
Proof.
  intros w.
  destruct (proj1 (proj2 (confirm_deploy_unchanged_sticky "main.bicep" w eq_refl)
                     "a" ["y"] eq_refl) eq_refl) as (w1 & Hrun & Hin & Hsticky).
  exists w1. split; [exact Hrun|]. split; [exact Hin|]. apply Hsticky.
Defined.

Lemma get_deployment_mode_loop_result (n : nat) :
  ∀ (lines : list string) (w w' : World) (r : option string),
    (length lines ≤ n)%nat →
    get_deployment_mode_loop lines w = (Ok r, w') →
    (r = None ∨ r = Some "Incremental" ∨ r = Some "Complete")
    ∧ ∃ consumed, lines = (consumed ++ w_input w')%list
        ∧ (r = Some "Complete" →
           ∃ pre c y, consumed = (pre ++ [c; y])%list ∧ upper c = "C" ∧ upper y = "Y").
Proof.
  induction n as [|n IH]; intros lines w w' r Hlen.
  - destruct lines; [done|simpl in Hlen; lia].
  - destruct lines as [|line rest]; [done|]. simpl in Hlen. simpl.
    destruct (_ || _) eqn:Hi.
    { intros [= <- <-]. split; [auto|]. exists [line]. by split. }
    destruct (upper line =? "C")%string eqn:Hc.
    { destruct rest as [|line2 rest2]; [done|].
      destruct (upper line2 =? "Y")%string eqn:Hy.
      - intros [= <- <-]. split; [auto|]. exists [line; line2]. split; [done|].
        intros _. exists [], line, line2.
        apply String.eqb_eq in Hc, Hy. by repeat split.
      - intros Hloop. destruct (IH rest2 w w' r) as (Hr & consumed & -> & Hcomplete);
          [simpl in Hlen; lia|done|].
        split; [done|]. exists (line :: line2 :: consumed). split; [done|].
        intros Hcompl. destruct (Hcomplete Hcompl) as (pre & c & y & -> & Hcy).
        by exists (line :: line2 :: pre), c, y. }
    destruct (upper line =? "Q")%string.
    { intros [= <- <-]. split; [auto|]. exists [line]. by split. }
    intros Hloop. destruct (IH rest w w' r) as (Hr & consumed & -> & Hcomplete);
      [lia|done|].
    split; [done|]. exists (line :: consumed). split; [done|].
    intros Hcompl. destruct (Hcomplete Hcompl) as (pre & c & y & -> & Hcy).
    by exists (line :: pre), c, y.
Qed.

(** X12. [get_deployment_mode] returns "Incremental", "Complete" or nothing
    (quit), having read a prefix of the operator's input. It returns
    "Complete" only when the last two lines it read were "C" and then "Y":
    the destructive mode is never chosen without its confirmation. *)
Theorem get_deployment_mode_result (w w' : World) (r : option string) :
  get_deployment_mode w = (Ok r, w') →
  (r = None ∨ r = Some "Incremental" ∨ r = Some "Complete")
  ∧ ∃ consumed, w_input w = (consumed ++ w_input w')%list
      ∧ (r = Some "Complete" →
         ∃ pre c y, consumed = (pre ++ [c; y])%list ∧ upper c = "C" ∧ upper y = "Y").
Proof.
  unfold get_deployment_mode. by apply (get_deployment_mode_loop_result (length (w_input w))).
Qed.

Lemma get_deployment_mode_result_witness :
  let w := sample_world_typing FileAbsent [] ["x"; "c"; "n"; "C"; "y"; "rest"] in
  ∃ w', get_deployment_mode w = (Ok (Some "Complete"), w') ∧ w_input w' = ["rest"]
    ∧ ∃ consumed, w_input w = (consumed ++ w_input w')%list.
Proof.
  intros w. eexists. split; [reflexivity|]. split; [reflexivity|].
  destruct (get_deployment_mode_result w _ _ eq_refl) as (_ & consumed & Hc & _).
  by exists consumed.
Defined.

(** ** Validating a batch *)

Lemma validation_only_refl (w : World) : loadable w → validation_only w w.
Proof. intros Hl. repeat split; try done. intros i e Hi. by exists e. Qed.

Lemma validation_only_trans (w1 w2 w3 : World) :
  validation_only w1 w2 → validation_only w2 w3 → validation_only w1 w3.
Proof.
  intros (_ & Hd1 & Hi1 & He1 & Hf1) (Hl & Hd2 & Hi2 & He2 & Hf2).
  repeat split; try congruence.
  intros i e Hi. destruct (Hf1 i e Hi) as (e' & He' & Hk').
  destruct (Hf2 i e' He') as (e'' & He'' & Hk''). exists e''. split; [done|].
  intros k Hk. by rewrite Hk'', Hk'.
Qed.

Section ValidateAll.
Context `{Datetime}.

Lemma update_validation_history_only (w : World) (f : Path) (success : bool) msg :
  loadable w →
  ∃ w', update_validation_history f success msg w = (Ok tt, w') ∧ validation_only w w'.
Proof.
  intros Hl.
  destruct (update_validation_history_effect w f success msg Hl)
    as (w' & Hrun & Hl' & _ & _ & _ & Hframe & _).
  exists w'. split; [done|]. split; [done|].
  assert (Hw' : w_disk w' = w_disk w ∧ w_input w' = w_input w ∧ w_events w' = w_events w).
  { revert Hrun. unfold update_validation_history, bind, lift.
    destruct (load_deployment_settings w); [|done].
    destruct (find_or_create _ _). by intros [= <-]. }
  destruct Hw' as (? & ? & ?). by repeat split.
Qed.

Lemma hoare_pure {A} (φ : Prop) (P : World → Prop) (m : M A) Q E :
  (φ → hoare P m Q E) → hoare (λ w, φ ∧ P w) m Q E.
Proof. intros Hm w [Hφ HP]. by apply Hm. Qed.

Lemma hoare_update_validation_history {A} (w0 : World) (f : Path) (success : bool) msg
    (k : unit → M A) Q E :
  hoare (validation_only w0) (k tt) Q E →
  hoare (validation_only w0) (bind (update_validation_history f success msg) k) Q E.
Proof.
  intros Hk. apply hoare_bind with (R := λ _ w, validation_only w0 w); [|by intros []].
  intros w Hv.
  destruct (update_validation_history_only w f success msg) as (w' & -> & Hv');
    [apply Hv|].
  by eapply validation_only_trans.
Qed.

Lemma validate_all_templates_loop_hoare resource_group parameters_file (w0 : World)
    (ts : list BicepTemplate.t) :
  ∀ s f,
    hoare (validation_only w0)
      (validate_all_templates_loop resource_group parameters_file ts s f)
      (λ r w', (r.1 + r.2 = s + f + length ts)%nat ∧ validation_only w0 w')
      (λ _ _, False).
Proof.
  induction ts as [|t ts IH]; intros s f; simpl.
  - apply hoare_ret. intros w Hv. simpl. split; [lia|done].
  - apply hoare_bind
      with (R := λ r w1, (r.1 + r.2 = S (s + f))%nat ∧ validation_only w0 w1).
    + apply hoare_try_except with (E' := λ _ w1, validation_only w0 w1).
      * unfold show_progress_spinner.
        apply hoare_bind with (R := λ _ w1, validation_only w0 w1).
        { intros w Hv. unfold call_tool. by destruct (w_validate _ _ _ _). }
        intros [is_valid message]. destruct is_valid.
        -- apply hoare_log, hoare_update_validation_history, hoare_ret.
           intros w Hv. simpl. split; [lia|done].
        -- apply hoare_log, hoare_update_validation_history, hoare_ret.
           intros w Hv. simpl. split; [lia|done].
      * intros e. apply hoare_consequence
          with (P' := validation_only w0)
               (Q' := λ r w1, (r.1 + r.2 = S (s + f))%nat ∧ validation_only w0 w1)
               (E' := λ _ _, False); [|done..].
        apply hoare_log, hoare_update_validation_history, hoare_ret.
        intros w Hv. simpl. split; [lia|done].
    + intros [s1 f1]. simpl. apply hoare_pure. intros Hsum.
      eapply hoare_consequence; [apply (IH s1 f1)|done| |done].
      intros r w' [Hr Hv]. split; [lia|done].
Qed.

Lemma validate_all_templates_loop_spec resource_group parameters_file
    (ts : list BicepTemplate.t) (s f : nat) (w : World) :
  loadable w →
  ∃ s' f' w',
    validate_all_templates_loop resource_group parameters_file ts s f w = (Ok (s', f'), w')
    ∧ (s' + f' = s + f + length ts)%nat
    ∧ validation_only w w'.
Proof.
  intros Hl.
  pose proof (validate_all_templates_loop_hoare resource_group parameters_file w ts s f w
                (validation_only_refl w Hl)) as Hrun.
  destruct (validate_all_templates_loop _ _ ts s f w) as [[[s' f']|e] w']; [|done].
  exists s', f', w'. by destruct Hrun.
Qed.

(** X13. On a loadable settings file [validate_all_templates] never raises: it
    returns [(successful, failed)] with one count per enabled, non-empty
    template, an exception of the Azure client counting as a failure. It
    writes validation fields only: every persisted entry keeps its deployment
    outcome, error, time and content hash. With no enabled, non-empty
    template it returns [(0, 0)] and changes nothing. *)
Theorem validate_all_templates_counts (templates : list BicepTemplate.t)
    (resource_group : string) (parameters_file : option Path) (w : World) :
  loadable w →
  ∃ s f w',
    validate_all_templates templates resource_group parameters_file w = (Ok (s, f), w')
    ∧ (s + f)%nat
      = length (List.filter
                  (λ t, truthy (BicepTemplate.enabled t) && (0 <? BicepTemplate.size t)%Z)
                  templates)
    ∧ validation_only w w'
    ∧ (List.filter
         (λ t, truthy (BicepTemplate.enabled t) && (0 <? BicepTemplate.size t)%Z)
         templates = [] → s = 0%nat ∧ f = 0%nat ∧ w' = w).
Proof.
  intros Hl. unfold validate_all_templates.
  destruct (List.filter _ templates) as [|t ts] eqn:Hen.
  - exists 0%nat, 0%nat, w. repeat split; try done. by apply validation_only_refl.
  - destruct (validate_all_templates_loop_spec resource_group parameters_file (t :: ts)
                0 0 w Hl) as (s & f & w' & Hrun & Hsum & Hv).
    exists s, f, w'. split; [done|]. split; [simpl in *; lia|]. split; [done|]. done.
Qed.

End ValidateAll.

Lemma validate_all_templates_counts_witness :
  let w := sample_world_rejecting (sample_settings [sample_deployed_record])
             [sample_file "main.bicep" 500 "abc"] in
  ∃ w', @validate_all_templates sample_datetime [sample_template "main.bicep"] "rg" None w
          = (Ok (0, 1)%nat, w')
    ∧ ∃ e', persisted_order w' !! 0%nat = Some e'
        ∧ e' !! "LastDeploymentSuccess" = Some (VBool true).
Proof.
  intros w.
  destruct (@validate_all_templates_counts sample_datetime [sample_template "main.bicep"]
              "rg" None w I) as (s & f & w' & Hrun & _ & Hv & _).
  assert (Hsf : (s, f) = (0, 1)%nat) by (revert Hrun; vm_compute; congruence).
  injection Hsf as -> ->. exists w'. split; [exact Hrun|].
  destruct Hv as (_ & _ & _ & _ & Hframe).
  destruct (Hframe 0%nat sample_deployed_record eq_refl) as (e' & He' & Hk).
  exists e'. split; [exact He'|]. rewrite Hk; [reflexivity|].
  rewrite list_elem_of_In. simpl. intros [Hx|[Hx|[Hx|[]]]]; discriminate Hx.
Defined.
